(** * MH-Z19C sensor framing: command builder, checksum and response codec

    A shallow embedding of [buildCommand], [checksum] and [read] of
    [main.go] (both variants of the program carry the same three
    functions), with the properties of the protocol core proved about it,
    and of what surrounds them: the start-up functions, [send] and [doIt]
    of the variant that stores the readings, and the loop of the variant
    that only logs them.

    Conventions of the embedding
    - a Go [byte] is a [Byte.byte]; [int(b)] is [int_of_byte], [byte(x)]
      is [byte_of_int] (truncation to the low eight bits);
    - a Go [int] is a [Z] kept in the 64-bit signed range by [wrap64];
    - a Go [[]byte] is a [list byte]; indexing outside the slice panics,
      which is an explicit outcome of the model;
    - a [float32] is a [spec_float] of the binary32 format;
    - the transport ([io.ReadWriter]) is a record of two state-passing
      functions over an arbitrary device state, and every call on it and
      every sleep is logged in a trace. *)

From Stdlib Require Import ZArith List Bool Lia String Ascii.
From Stdlib Require Import Strings.Byte.
From Stdlib Require Import Floats.SpecFloat.
Import ListNotations.

Local Open Scope Z_scope.

(** ** Machine integers and bytes *)

Module GoInt.

(** Two's-complement reduction of an unbounded integer to Go's [int], the
    64-bit one of the usual targets. *)
Definition wrap64 (z : Z) : Z := (z + 2 ^ 63) mod 2 ^ 64 - 2 ^ 63.

Definition add (a b : Z) : Z := wrap64 (a + b).
Definition sub (a b : Z) : Z := wrap64 (a - b).
Definition mul (a b : Z) : Z := wrap64 (a * b).

(** [int(b)] for a byte [b]. *)
Definition int_of_byte (b : byte) : Z := Z.of_N (Byte.to_N b).

(** [byte(x)] for an int [x]: the low eight bits. *)
Definition byte_of_int (z : Z) : byte :=
  match Byte.of_N (Z.to_N (z mod 256)) with
  | Some b => b
  | None => x00
  end.

End GoInt.
Import GoInt.

(** ** Outcomes: a Go function either returns or panics *)

Inductive Outcome (A : Type) : Type :=
| Return (a : A)
| Panic (msg : string).
Arguments Return {A} a.
Arguments Panic {A} msg.

Definition obind {A B} (m : Outcome A) (k : A -> Outcome B) : Outcome B :=
  match m with
  | Return a => k a
  | Panic msg => Panic msg
  end.

Declare Scope outcome_scope.
Delimit Scope outcome_scope with outcome.
Notation "x <-! m ; k" := (obind m (fun x => k))
  (at level 61, m at next level, right associativity) : outcome_scope.

(** ** Slices of bytes *)

Module Slice.

(** [make([]byte, n)]: [n] zero bytes. *)
Definition make (n : Z) : list byte := repeat x00 (Z.to_nat n).

(** [len(s)]. *)
Definition len (s : list byte) : Z := Z.of_nat (List.length s).

(** [s[i]] as an expression: panics outside [0 <= i < len(s)]. *)
Definition index (s : list byte) (i : Z) : Outcome byte :=
  if (i <? 0) || (len s <=? i) then Panic "index out of range"
  else match nth_error s (Z.to_nat i) with
       | Some b => Return b
       | None => Panic "index out of range"
       end.

Fixpoint update (s : list byte) (n : nat) (v : byte) : list byte :=
  match s, n with
  | [], _ => []
  | _ :: t, O => v :: t
  | h :: t, S n' => h :: update t n' v
  end.

(** [s[i] = v] as a statement: panics outside [0 <= i < len(s)]. *)
Definition assign (s : list byte) (i : Z) (v : byte) : Outcome (list byte) :=
  if (i <? 0) || (len s <=? i) then Panic "index out of range"
  else Return (update s (Z.to_nat i) v).

End Slice.

(** ** Counted loops

    [for i := lo; i < hi; i++ { body }] over a loop-carried state: the
    number of iterations is known on entry since no body below changes
    [i] or [hi]. *)

Fixpoint for_iter {St : Type} (n : nat) (i : Z)
    (body : Z -> St -> Outcome St) (s : St) : Outcome St :=
  match n with
  | O => Return s
  | S n' => obind (body i s) (for_iter n' (i + 1) body)
  end.

Definition for_loop {St : Type} (lo hi : Z)
    (body : Z -> St -> Outcome St) (s : St) : Outcome St :=
  for_iter (Z.to_nat (hi - lo)) lo body s.

(** ** The command builder and the checksum *)

Definition cmdSize : Z := 9.

Local Open Scope outcome_scope.

(** [func buildCommand() []byte] *)
Definition buildCommand : Outcome (list byte) :=
  let cmd := Slice.make cmdSize in
  cmd <-! Slice.assign cmd 0 (byte_of_int 0xFF) ;
  cmd <-! Slice.assign cmd 1 (byte_of_int 0x01) ;
  cmd <-! Slice.assign cmd 2 (byte_of_int 0x86) ;
  cmd <-! for_loop 3 8 (fun i cmd => Slice.assign cmd i (byte_of_int 0x00)) cmd ;
  let sum := 0 in
  sum <-! for_loop 1 8
            (fun i sum => b <-! Slice.index cmd i ;
                          Return (GoInt.add sum (int_of_byte b))) sum ;
  cmd <-! Slice.assign cmd 8 (byte_of_int (GoInt.add (GoInt.sub 0xFF sum) 1)) ;
  Return cmd.

(** [func checksum(response []byte) byte] *)
Definition checksum (response : list byte) : Outcome byte :=
  let sum := 0 in
  sum <-! for_loop 1 8
            (fun i sum => b <-! Slice.index response i ;
                          Return (GoInt.add sum (int_of_byte b))) sum ;
  Return (byte_of_int (GoInt.add (GoInt.sub 0xFF sum) 1)).

Local Close Scope outcome_scope.

(** ** float32 *)

Module Float32.

Definition prec : Z := 24.
Definition emax : Z := 128.

(** [float32(x)] for an int [x]: the nearest binary32 value, ties to even. *)
Definition of_int (z : Z) : spec_float := binary_normalize prec emax z 0 false.

(** The integer a float denotes, when it denotes one exactly. *)
Definition to_int (f : spec_float) : option Z :=
  match f with
  | S754_zero _ => Some 0
  | S754_finite s m e =>
      let v := if s then Z.neg m else Z.pos m in
      if 0 <=? e then Some (v * 2 ^ e)
      else if v mod 2 ^ (- e) =? 0 then Some (v / 2 ^ (- e)) else None
  | S754_infinity _ | S754_nan => None
  end.

End Float32.

(** ** Results and errors of an exchange *)

Record Result : Type := { Co2Concentration : spec_float }.

(** [Result{}] *)
Definition Result_zero : Result := {| Co2Concentration := S754_zero false |}.

(** The six [fmt.Errorf] call sites of [read], each with the arguments it
    formats. A transport error is known by its message. *)
Inductive Error : Type :=
| SendFailed (err : string)
| ShortWrite (n expected : Z)
| ReadFailure (err : string)
| ShortResponse (n expected : Z)
| InvalidHeader (b0 b1 : byte)
| ChecksumMismatch (b8 : byte).

Module Fmt.

Definition hex_digit (z : Z) : ascii :=
  if z <? 10 then ascii_of_nat (Z.to_nat (48 + z))
  else ascii_of_nat (Z.to_nat (65 + (z - 10))).

(** [%02X] of a byte. *)
Definition X02 (b : byte) : string :=
  let z := int_of_byte b in
  String (hex_digit (z / 16)) (String (hex_digit (z mod 16)) EmptyString).

Fixpoint digits (fuel : nat) (z : Z) (acc : string) : string :=
  match fuel with
  | O => acc
  | S fuel' =>
      let acc' := String (ascii_of_nat (Z.to_nat (48 + z mod 10))) acc in
      if z <? 10 then acc' else digits fuel' (z / 10) acc'
  end.

(** [%d] of an int (at most 19 decimal digits and a sign). *)
Definition d (z : Z) : string :=
  if z <? 0 then String "-" (digits 20 (- z) EmptyString)
  else digits 20 z EmptyString.

End Fmt.

(** The text of the error, as [Error()] gives it. *)
Definition Error_string (e : Error) : string :=
  match e with
  | SendFailed err => "failed to send command: " ++ err
  | ShortWrite n expected =>
      "failed to send command: " ++ Fmt.d n ++ " bytes sent, expected "
        ++ Fmt.d expected
  | ReadFailure err => "failed to read response: " ++ err
  | ShortResponse n expected =>
      "response too short: " ++ Fmt.d n ++ " bytes, expected " ++ Fmt.d expected
  | InvalidHeader b0 b1 =>
      "invalid response header: " ++ Fmt.X02 b0 ++ " " ++ Fmt.X02 b1
  | ChecksumMismatch b8 => "invalid checksum: " ++ Fmt.X02 b8
  end%string.

(** ** The transport and the world an exchange runs in *)

(** [copy(dst, src)]: the first [min(len(dst), len(src))] bytes of [dst]
    are overwritten, its length is unchanged. *)
Definition copy (dst src : list byte) : list byte :=
  firstn (List.length dst) (src ++ skipn (List.length src) dst).

(** An [io.ReadWriter] over a device state [S].  [Write p] reports a byte
    count and an error; [Read p] moreover yields the bytes the device
    stores into [p] from index 0 on (the caller's slice keeps its length). *)
Record ReadWriter (S : Type) : Type := {
  Write : S -> list byte -> (Z * option string) * S;
  Read : S -> list byte -> (list byte * Z * option string) * S
}.
Arguments Write {S} _ _ _.
Arguments Read {S} _ _ _.

Inductive Event : Type :=
| EvWrite (p : list byte)
| EvSleep (d : Z)
| EvRead (p : list byte).

Record World (S : Type) : Type := {
  device : S;
  trace : list Event
}.
Arguments device {S} _.
Arguments trace {S} _.

(** [time.Millisecond], in nanoseconds. *)
Definition Millisecond : Z := 1000000.

Section Exchange.

Context {S : Type} (dev : ReadWriter S).

Definition M (A : Type) : Type := World S -> Outcome A * World S.

Definition ret {A} (a : A) : M A := fun w => (Return a, w).

Definition bind {A B} (m : M A) (k : A -> M B) : M B :=
  fun w => match m w with
           | (Return a, w') => k a w'
           | (Panic msg, w') => (Panic msg, w')
           end.

Definition lift {A} (o : Outcome A) : M A := fun w => (o, w).

Definition log (e : Event) : M unit :=
  fun w => (Return tt, {| device := device w; trace := trace w ++ [e] |}).

Definition dev_Write (p : list byte) : M (Z * option string) :=
  bind (log (EvWrite p)) (fun _ w =>
    let (r, s') := Write dev (device w) p in
    (Return r, {| device := s'; trace := trace w |})).

Definition dev_Read (p : list byte) : M (list byte * Z * option string) :=
  bind (log (EvRead p)) (fun _ w =>
    let '(data, n, err, s') := Read dev (device w) p in
    (Return (copy p data, n, err), {| device := s'; trace := trace w |})).

Definition Sleep (d : Z) : M unit := log (EvSleep d).

Notation "x <- m ;; k" := (bind m (fun x => k))
  (at level 61, m at next level, right associativity).

(** [func read(dev io.ReadWriter, cmd []byte) (Result, error)] *)
Definition read (cmd : list byte) : M (Result * option Error) :=
  let response := Slice.make cmdSize in
  r <- dev_Write cmd ;;
  let '(n, err) := r in
  match err with
  | Some e => ret (Result_zero, Some (SendFailed e))
  | None =>
  if negb (n =? Slice.len cmd)
  then ret (Result_zero, Some (ShortWrite n (Slice.len cmd)))
  else
  _ <- Sleep (GoInt.mul 150 Millisecond) ;;
  r <- dev_Read response ;;
  let '(response, _, err) := r in
  match err with
  | Some e => ret (Result_zero, Some (ReadFailure e))
  | None =>
  if Slice.len response <? cmdSize
  then ret (Result_zero, Some (ShortResponse (Slice.len response) cmdSize))
  else
  b0 <- lift (Slice.index response 0) ;;
  bad <- (if negb (Byte.eqb b0 xff) then ret true
          else b1 <- lift (Slice.index response 1) ;;
               ret (negb (Byte.eqb b1 x86))) ;;
  if bad : bool
  then b0 <- lift (Slice.index response 0) ;;
       b1 <- lift (Slice.index response 1) ;;
       ret (Result_zero, Some (InvalidHeader b0 b1))
  else
  b8 <- lift (Slice.index response 8) ;;
  c <- lift (checksum response) ;;
  if negb (Byte.eqb b8 c)
  then b8 <- lift (Slice.index response 8) ;;
       ret (Result_zero, Some (ChecksumMismatch b8))
  else
  high <- lift (Slice.index response 2) ;;
  let high := int_of_byte high in
  low <- lift (Slice.index response 3) ;;
  let low := int_of_byte low in
  let concentration := Float32.of_int (GoInt.add (GoInt.mul high 256) low) in
  ret ({| Co2Concentration := concentration |}, None)
  end
  end.

End Exchange.

Arguments read {S} dev cmd _.

(** ** A scripted transport

    Every [Write] reports the same count and error and every [Read]
    delivers the same bytes, count and error; the device has no state. *)

Definition scripted (w : Z * option string)
    (r : list byte * Z * option string) : ReadWriter unit :=
  {| Write := fun s _ => (w, s);
     Read := fun s _ => (r, s) |}.

Definition world0 : World unit := {| device := tt; trace := [] |}.

(** The command frame [main] passes to every exchange. *)
Definition command : list byte :=
  [xff; x01; x86; x00; x00; x00; x00; x00; x79].

(** ** The checksum as the specification words it

    The sum of the bytes at indices 1 to 7 taken as an unbounded integer,
    then [0xFF - sum + 1] reduced modulo 256. *)

Definition spec_sum (frame : list byte) : Z :=
  fold_right Z.add 0 (map int_of_byte (firstn 7 (skipn 1 frame))).

Definition spec_checksum (frame : list byte) : Z :=
  (0xFF - spec_sum frame + 1) mod 256.

(** What a complete exchange adds to the trace. *)
Definition exchange_trace (cmd : list byte) : list Event :=
  [EvWrite cmd; EvSleep 150000000; EvRead (Slice.make cmdSize)].

(** ** Checking float32 conversion on a range

    [exact_from n z]: each of the [n] integers from [z] on converts to a
    float32 that denotes it. *)

Fixpoint exact_from (n : nat) (z : Z) : bool :=
  match n with
  | O => true
  | S n' =>
      match Float32.to_int (Float32.of_int z) with
      | Some v => v =? z
      | None => false
      end && exact_from n' (z + 1)
  end.

(** ** The process environment and the start-up functions *)

(** The environment of the process: the value of each variable that is set. *)
Definition Env : Type := string -> option string.

(** [os.LookupEnv] *)
Definition LookupEnv (env : Env) (key : string) : string * bool :=
  match env key with
  | Some v => (v, true)
  | None => (EmptyString, false)
  end.

(** [os.Getenv]: the empty string when the variable is not set. *)
Definition Getenv (env : Env) (key : string) : string :=
  fst (LookupEnv env key).

(** [time.Second], in nanoseconds. *)
Definition Second : Z := 1000000000.

(** The lines [log.Printf] writes, each with the arguments it formats. *)
Inductive LogLine : Type :=
| LogUart (port : string)           (* "UART device: %s" *)
| LogLoadLocation (err : string)    (* "Failed to laod Asia/Tokyo timezone: %v" *)
| LogInvalidSleep (err : string)    (* "Invalid SLEEP_DURATION_SECONDS value: ..." *)
| LogSleepNotPositive               (* "SLEEP_DURATION_SECONDS must be positive, ..." *)
| LogErrorReading (e : Error)       (* "Error reading data: %v" *)
| LogError (e : Error)              (* "Error: %v" *)
| LogCo2 (v : spec_float)           (* "CO2 Concentration: %.2f ppm" *)
| LogWritePoint (err : string).     (* "Error writing point: %v" *)

Inductive Parity : Type :=
| NoParity | OddParity | EvenParity | MarkParity | SpaceParity.

Inductive StopBits : Type :=
| OneStopBit | OnePointFiveStopBits | TwoStopBits.

(** [serial.Mode] *)
Record Mode : Type := {
  BaudRate : Z;
  ModeParity : Parity;
  DataBits : Z;
  ModeStopBits : StopBits
}.

(** The serial package as [initConn] uses it, over a type [P] of open
    ports: the list of ports or an error, and the opening of a port. *)
Record Serial (P : Type) : Type := {
  GetPortsList : list string * option string;
  Open : string -> Mode -> P + string
}.
Arguments GetPortsList {P} _.
Arguments Open {P} _ _ _.

(** [func initConn() (io.ReadWriteCloser, error)] *)
Definition initConn {P} (env : Env) (serial : Serial P)
  : (P + string) * list LogLine :=
  let uartport := Getenv env "UART_DEV" in
  let chosen : string + string :=
    if String.eqb uartport ""
    then let '(ports, err) := GetPortsList serial in
         match err with
         | Some e => inr ("failed to get serial ports: " ++ e)%string
         | None =>
             match ports with
             | [] => inr "no serial ports found"%string
             | port0 :: _ => inl port0
             end
         end
    else inl uartport in
  match chosen with
  | inr e => (inr e, [])
  | inl uartport =>
      let mode := {| BaudRate := 9600; ModeParity := NoParity;
                     DataBits := 8; ModeStopBits := OneStopBit |} in
      match Open serial uartport mode with
      | inr e =>
          (inr ("failed to open UART port " ++ uartport ++ ": " ++ e)%string,
           [LogUart uartport])
      | inl p => (inl p, [LogUart uartport])
      end
  end.

(** [type InfluxDBInfo struct] *)
Record InfluxDBInfo : Type := { Org : string; Bucket : string }.

(** [func initInfo() (InfluxDBInfo, error)] *)
Definition initInfo (env : Env) : InfluxDBInfo * option string :=
  let '(org, found) := LookupEnv env "INFLUXDB_ORG" in
  let org := if negb found then "lemolatoon"%string else org in
  let '(bucket, found) := LookupEnv env "INFLUXDB_BUCKET" in
  let bucket := if negb found then "sensor-home"%string else bucket in
  ({| Org := org; Bucket := bucket |}, None).

(** The time package as [initLocation] uses it, over a type [L] of
    locations. *)
Record Zones (L : Type) : Type := {
  LoadLocation : string -> L + string;
  FixedZone : string -> Z -> L
}.
Arguments LoadLocation {L} _ _.
Arguments FixedZone {L} _ _ _.

(** [func initLocation() *time.Location] *)
Definition initLocation {L} (zones : Zones L) : L * list LogLine :=
  match LoadLocation zones "Asia/Tokyo" with
  | inr err =>
      (FixedZone zones "Asia/Tokyo" (GoInt.mul (GoInt.mul 9 60) 60),
       [LogLoadLocation err])
  | inl loc => (loc, [])
  end.

(** [func initSleepDuration() time.Duration], over [strconv.Atoi] given as
    the value and the error it returns. *)
Definition initSleepDuration (Atoi : string -> Z * option string) (env : Env)
  : Z * list LogLine :=
  let '(durationStr, found) := LookupEnv env "SLEEP_DURATION_SECONDS" in
  let durationStr := if negb found then "60"%string else durationStr in
  let '(duration, err) := Atoi durationStr in
  let '(duration, log1) :=
    match err with
    | Some e => (60, [LogInvalidSleep e])
    | None => (duration, [])
    end in
  let '(duration, log2) :=
    if duration <=? 0 then (60, [LogSleepNotPositive]) else (duration, []) in
  (GoInt.mul duration Second, log1 ++ log2).

(** What [influxdb2.NewClient(url, token)] is given. *)
Record Client : Type := { serverURL : string; authToken : string }.

(** [func initClient() (influxdb2.Client, error)] *)
Definition initClient (env : Env) : Client + string :=
  let '(token, found) := LookupEnv env "INFLUXDB_TOKEN" in
  if negb found then inr "INFLUXDB_TOKEN not set"%string
  else
    let '(url, found) := LookupEnv env "INFLUXDB_URL" in
    let url := if negb found then "http://localhost:8086"%string else url in
    inl {| serverURL := url; authToken := token |}.

(** What [main] holds when it enters its loop. *)
Record Config (P L : Type) : Type := {
  conn : P;
  location : L;
  influxInfo : InfluxDBInfo;
  influxClient : Client;
  sleepDuration : Z;
  cmd : list byte
}.
Arguments conn {P L} _.
Arguments location {P L} _.
Arguments influxInfo {P L} _.
Arguments influxClient {P L} _.
Arguments sleepDuration {P L} _.
Arguments cmd {P L} _.

(** [func main()] of the variant that stores the readings, up to its loop:
    [inr msg] is the exit through [log.Fatal(msg)]. *)
Definition main_startup {P L} (Atoi : string -> Z * option string)
    (env : Env) (serial : Serial P) (zones : Zones L)
  : Outcome (Config P L + string) * list LogLine :=
  let '(c, log1) := initConn env serial in
  match c with
  | inr err => (Return (inr err), log1)
  | inl c =>
      let '(loc, log2) := initLocation zones in
      let '(influxInfo, err) := initInfo env in
      match err with
      | Some err => (Return (inr err), log1 ++ log2)
      | None =>
          match initClient env with
          | inr err => (Return (inr err), log1 ++ log2)
          | inl client =>
              let '(sleepDuration, log3) := initSleepDuration Atoi env in
              (obind buildCommand (fun cmd =>
                 Return (inl {| conn := c; location := loc;
                                influxInfo := influxInfo;
                                influxClient := client;
                                sleepDuration := sleepDuration;
                                cmd := cmd |})),
               log1 ++ log2 ++ log3)
          end
      end
  end.

(** ** Storing a reading *)

(** [time.Now().In(loc)] *)
Record Timestamp (L : Type) : Type := { instant : Z; zone : L }.
Arguments instant {L} _.
Arguments zone {L} _.

(** What [write.NewPoint] is given. *)
Record Point (L : Type) : Type := {
  measurement : string;
  tags : list (string * string);
  fields : list (string * spec_float);
  ts : Timestamp L
}.
Arguments measurement {L} _.
Arguments tags {L} _.
Arguments fields {L} _.
Arguments ts {L} _.

(** The store and the clock, over a state [E]: the blocking write of a
    point for an organisation and a bucket, and the current instant. *)
Record Influx (E L : Type) : Type := {
  WritePoint : E -> Client -> string -> string -> Point L -> option string * E;
  Now : E -> Z * E
}.
Arguments WritePoint {E L} _ _ _ _ _ _.
Arguments Now {E L} _ _.

(** The transport, the log and the store side by side. *)
Record App (S E : Type) : Type := {
  io : World S;
  logged : list LogLine;
  ext : E
}.
Arguments io {S E} _.
Arguments logged {S E} _.
Arguments ext {S E} _.

(** [func send(client, info, loc, result)] *)
Definition send {S E L} (db : Influx E L) (client : Client)
    (info : InfluxDBInfo) (loc : L) (result : Result) (a : App S E)
  : App S E :=
  let tags := [("sensor", "MH-Z19C")]%string in
  let fields := [("co2_concentration"%string, Co2Concentration result)] in
  let '(now, e1) := Now db (ext a) in
  let point := {| measurement := "sensor_data"; tags := tags;
                  fields := fields;
                  ts := {| instant := now; zone := loc |} |} in
  let '(err, e2) := WritePoint db e1 client (Org info) (Bucket info) point in
  match err with
  | Some e => {| io := io a; logged := logged a ++ [LogWritePoint e]; ext := e2 |}
  | None => {| io := io a; logged := logged a; ext := e2 |}
  end.

(** [func doIt(c, cmd, client, info, loc)] *)
Definition doIt {S E L} (c : ReadWriter S) (cmd : list byte)
    (db : Influx E L) (client : Client) (info : InfluxDBInfo) (loc : L)
    (a : App S E) : Outcome unit * App S E :=
  match read c cmd (io a) with
  | (Panic msg, w') =>
      (Panic msg, {| io := w'; logged := logged a; ext := ext a |})
  | (Return (result, err), w') =>
      match err with
      | Some e =>
          (Return tt,
           {| io := w'; logged := logged a ++ [LogErrorReading e];
              ext := ext a |})
      | None =>
          (Return tt,
           send db client info loc result
             {| io := w';
                logged := logged a ++ [LogCo2 (Co2Concentration result)];
                ext := ext a |})
      end
  end.

(** ** The loop of the variant that only logs

    [for { res, err := read(c, cmd); ... }] has no exit; [main_loop k] is
    its first [k] iterations over the transport and the log. *)

Definition main_iteration {S} (c : ReadWriter S) (cmd : list byte)
    (st : World S * list LogLine) : Outcome unit * (World S * list LogLine) :=
  let '(w, lg) := st in
  match read c cmd w with
  | (Panic msg, w') => (Panic msg, (w', lg))
  | (Return (res, err), w') =>
      match err with
      | Some e => (Return tt, (w', lg ++ [LogError e]))
      | None =>
          let lg' := lg ++ [LogCo2 (Co2Concentration res)] in
          match Sleep (GoInt.mul 1 Second) w' with
          | (Return _, w'') => (Return tt, (w'', lg'))
          | (Panic msg, w'') => (Panic msg, (w'', lg'))
          end
      end
  end.

Fixpoint main_loop {S} (c : ReadWriter S) (cmd : list byte) (k : nat)
    (st : World S * list LogLine) : Outcome unit * (World S * list LogLine) :=
  match k with
  | O => (Return tt, st)
  | S k' =>
      match main_iteration c cmd st with
      | (Return _, st') => main_loop c cmd k' st'
      | (Panic msg, st') => (Panic msg, st')
      end
  end.

(** A decimal reading of [strconv.Atoi]'s inputs, to run the start-up
    functions on concrete environments: an optional sign, then digits
    only, and a range error outside the 64-bit integers. *)
Module Strconv.

Fixpoint digits_value (s : string) (acc : Z) : option Z :=
  match s with
  | EmptyString => Some acc
  | String ch rest =>
      let n := Z.of_nat (nat_of_ascii ch) in
      if (48 <=? n) && (n <=? 57) then digits_value rest (acc * 10 + (n - 48))
      else None
  end.

(** The input between double quotes. *)
Definition quoted (s : string) : string :=
  String (ascii_of_nat 34) (s ++ String (ascii_of_nat 34) EmptyString).

Definition syntax_error (s : string) : string :=
  ("strconv.Atoi: parsing " ++ quoted s ++ ": invalid syntax")%string.

Definition range_error (s : string) : string :=
  ("strconv.Atoi: parsing " ++ quoted s ++ ": value out of range")%string.

Definition Atoi (s : string) : Z * option string :=
  let '(neg, body) :=
    match s with
    | String "-" rest => (true, rest)
    | String "+" rest => (false, rest)
    | _ => (false, s)
    end in
  match body with
  | EmptyString => (0, Some (syntax_error s))
  | _ =>
      match digits_value body 0 with
      | None => (0, Some (syntax_error s))
      | Some v =>
          let v := if neg then - v else v in
          if v <? - 2 ^ 63 then (- 2 ^ 63, Some (range_error s))
          else if 2 ^ 63 <=? v then (2 ^ 63 - 1, Some (range_error s))
          else (v, None)
      end
  end.

End Strconv.

(** An environment given by the list of its settings. *)
Fixpoint env_of (l : list (string * string)) : Env :=
  fun key =>
    match l with
    | [] => None
    | (k, v) :: rest => if String.eqb k key then Some v else env_of rest key
    end.

(** ** Counting in traces and logs *)

Definition is_write (e : Event) : bool :=
  match e with EvWrite _ => true | _ => false end.

Definition is_sleep (d : Z) (e : Event) : bool :=
  match e with EvSleep d' => d' =? d | _ => false end.

Definition is_co2_line (l : LogLine) : bool :=
  match l with LogCo2 _ => true | _ => false end.

Definition count {A} (p : A -> bool) (l : list A) : nat :=
  List.length (filter p l).


(** * Properties *)

(** ** The model on concrete inputs *)

Example buildCommand_frame :
  buildCommand = Return [xff; x01; x86; x00; x00; x00; x00; x00; x79].
Proof. vm_compute. reflexivity. Qed.

Example Error_string_header :
  Error_string (InvalidHeader x00 x86) = "invalid response header: 00 86"%string.
Proof. reflexivity. Qed.

Example Error_string_short_write :
  Error_string (ShortWrite 5 9)
  = "failed to send command: 5 bytes sent, expected 9"%string.
Proof. reflexivity. Qed.

(** ** Bytes and machine integers *)

Lemma int_of_byte_range (b : byte) : 0 <= int_of_byte b < 256.
Proof.
  unfold int_of_byte.
  pose proof (Byte.to_N_bounded b) as Hb.
  lia.
Qed.

Lemma int_of_byte_of_int (z : Z) : int_of_byte (byte_of_int z) = z mod 256.
Proof.
  unfold int_of_byte, byte_of_int.
  pose proof (Z.mod_pos_bound z 256 eq_refl) as Hm.
  destruct (Byte.of_N (Z.to_N (z mod 256))) as [b|] eqn:E.
  - apply Byte.to_of_N in E. rewrite E. lia.
  - apply Byte.of_N_None_iff in E. lia.
Qed.

Lemma int_of_byte_inj (a b : byte) : int_of_byte a = int_of_byte b -> a = b.
Proof.
  unfold int_of_byte. intros H.
  assert (E : Byte.to_N a = Byte.to_N b) by lia.
  pose proof (Byte.of_to_N a) as Ha.
  rewrite E, Byte.of_to_N in Ha.
  congruence.
Qed.

Lemma byte_of_int_of_byte (b : byte) : byte_of_int (int_of_byte b) = b.
Proof.
  apply int_of_byte_inj.
  rewrite int_of_byte_of_int.
  apply Z.mod_small, int_of_byte_range.
Qed.

Lemma byte_of_int_mod (z : Z) : byte_of_int (z mod 256) = byte_of_int z.
Proof.
  apply int_of_byte_inj.
  rewrite !int_of_byte_of_int.
  apply Z.mod_mod. lia.
Qed.

Lemma wrap64_small (z : Z) : - 2 ^ 63 <= z < 2 ^ 63 -> wrap64 z = z.
Proof.
  intros H. unfold wrap64.
  rewrite Z.mod_small; lia.
Qed.

(** Innermost first: an operation that stays in range is the unbounded one. *)
Ltac unwrap64 :=
  repeat match goal with
         | |- context [wrap64 ?z] =>
             lazymatch z with
             | context [wrap64 _] => fail
             | _ => rewrite (wrap64_small z) by lia
             end
         end.

Lemma eqb_neq (a b : byte) : a <> b -> Byte.eqb a b = false.
Proof.
  intros H. destruct (Byte.eqb a b) eqn:E; [|reflexivity].
  apply Byte.byte_dec_bl in E. contradiction.
Qed.

Lemma eqb_refl (a : byte) : Byte.eqb a a = true.
Proof. now apply Byte.byte_dec_lb. Qed.

(** ** Slices *)

Lemma index_frame9 (a0 a1 a2 a3 a4 a5 a6 a7 a8 : byte) :
  Slice.index [a0; a1; a2; a3; a4; a5; a6; a7; a8] 0 = Return a0 /\
  Slice.index [a0; a1; a2; a3; a4; a5; a6; a7; a8] 1 = Return a1 /\
  Slice.index [a0; a1; a2; a3; a4; a5; a6; a7; a8] 2 = Return a2 /\
  Slice.index [a0; a1; a2; a3; a4; a5; a6; a7; a8] 3 = Return a3 /\
  Slice.index [a0; a1; a2; a3; a4; a5; a6; a7; a8] 8 = Return a8.
Proof. repeat split. Qed.

(** Reads the indexings of a nine-byte literal frame off hypothesis [H]. *)
Ltac index9_in H :=
  match type of H with
  | context [Slice.index [?a0; ?a1; ?a2; ?a3; ?a4; ?a5; ?a6; ?a7; ?a8] _] =>
      let I0 := fresh in let I1 := fresh in let I2 := fresh in
      let I3 := fresh in let I8 := fresh in
      destruct (index_frame9 a0 a1 a2 a3 a4 a5 a6 a7 a8)
        as (I0 & I1 & I2 & I3 & I8);
      rewrite ?I0, ?I1, ?I2, ?I3, ?I8 in H;
      clear I0 I1 I2 I3 I8
  end.

Lemma length9_inv {A} (l : list A) :
  List.length l = 9%nat ->
  exists a0 a1 a2 a3 a4 a5 a6 a7 a8, l = [a0; a1; a2; a3; a4; a5; a6; a7; a8].
Proof.
  intros H.
  do 9 (destruct l as [|? l]; [discriminate H|]).
  destruct l; [|discriminate H].
  repeat eexists.
Qed.

Lemma copy_length (dst src : list byte) :
  List.length (copy dst src) = List.length dst.
Proof.
  unfold copy.
  rewrite length_firstn, length_app, length_skipn. lia.
Qed.

Lemma make_length (n : Z) : List.length (Slice.make n) = Z.to_nat n.
Proof. unfold Slice.make. apply repeat_length. Qed.

(** The response buffer of [read] holds nine bytes whatever the transport
    stores into it. *)
Lemma response_frame (data : list byte) :
  exists a0 a1 a2 a3 a4 a5 a6 a7 a8,
    copy (Slice.make cmdSize) data = [a0; a1; a2; a3; a4; a5; a6; a7; a8].
Proof.
  apply length9_inv.
  rewrite copy_length, make_length. reflexivity.
Qed.

(** ** The checksum loop *)

Lemma checksum_frame9 (a0 a1 a2 a3 a4 a5 a6 a7 a8 : byte) :
  checksum [a0; a1; a2; a3; a4; a5; a6; a7; a8] =
  Return (byte_of_int
            (0xFF - (int_of_byte a1 + int_of_byte a2 + int_of_byte a3
                     + int_of_byte a4 + int_of_byte a5 + int_of_byte a6
                     + int_of_byte a7) + 1)).
Proof.
  pose proof (int_of_byte_range a1). pose proof (int_of_byte_range a2).
  pose proof (int_of_byte_range a3). pose proof (int_of_byte_range a4).
  pose proof (int_of_byte_range a5). pose proof (int_of_byte_range a6).
  pose proof (int_of_byte_range a7).
  unfold checksum, for_loop.
  change (Z.to_nat (8 - 1)) with 7%nat.
  cbn [for_iter obind].
  change (Slice.index [a0; a1; a2; a3; a4; a5; a6; a7; a8] 1) with (Return a1).
  cbn [obind Z.add Pos.add Pos.succ].
  change (Slice.index [a0; a1; a2; a3; a4; a5; a6; a7; a8] 2) with (Return a2).
  cbn [obind Z.add Pos.add Pos.succ].
  change (Slice.index [a0; a1; a2; a3; a4; a5; a6; a7; a8] 3) with (Return a3).
  cbn [obind Z.add Pos.add Pos.succ].
  change (Slice.index [a0; a1; a2; a3; a4; a5; a6; a7; a8] 4) with (Return a4).
  cbn [obind Z.add Pos.add Pos.succ].
  change (Slice.index [a0; a1; a2; a3; a4; a5; a6; a7; a8] 5) with (Return a5).
  cbn [obind Z.add Pos.add Pos.succ].
  change (Slice.index [a0; a1; a2; a3; a4; a5; a6; a7; a8] 6) with (Return a6).
  cbn [obind Z.add Pos.add Pos.succ].
  change (Slice.index [a0; a1; a2; a3; a4; a5; a6; a7; a8] 7) with (Return a7).
  cbn [obind].
  unfold GoInt.add, GoInt.sub.
  f_equal. f_equal.
  unwrap64.
  lia.
Qed.

(** ** Conversion to float32 is exact on sixteen-bit magnitudes *)

Lemma exact_from_spec (n : nat) :
  forall z, exact_from n z = true ->
  forall v, z <= v < z + Z.of_nat n ->
  Float32.to_int (Float32.of_int v) = Some v.
Proof.
  induction n as [|n IH]; intros z Hc v Hv.
  - lia.
  - cbn [exact_from] in Hc. apply andb_prop in Hc. destruct Hc as [Hz Hrest].
    destruct (Z.eq_dec v z) as [->|Hne].
    + destruct (Float32.to_int (Float32.of_int z)) as [u|]; [|discriminate Hz].
      apply Z.eqb_eq in Hz. now subst u.
    + apply (IH (z + 1) Hrest). lia.
Qed.

Lemma float32_exact_uint16 (v : Z) :
  0 <= v < 65536 -> Float32.to_int (Float32.of_int v) = Some v.
Proof.
  intros Hv.
  apply (exact_from_spec (Z.to_nat 65536) 0).
  - vm_compute. reflexivity.
  - rewrite Z2Nat.id; lia.
Qed.

(** ** The paths of [read] *)

Section ExchangeFacts.

Context {S : Type} (dev : ReadWriter S).

Ltac run_read :=
  cbv beta delta [read bind dev_Write dev_Read Sleep log ret lift];
  change (GoInt.mul 150 Millisecond) with 150000000;
  cbn [device trace].

Lemma read_send_failed (w : World S) cmd n e s1 :
  Write dev (device w) cmd = ((n, Some e), s1) ->
  read dev cmd w =
  (Return (Result_zero, Some (SendFailed e)),
   {| device := s1; trace := trace w ++ [EvWrite cmd] |}).
Proof. intros HW. run_read. rewrite HW. reflexivity. Qed.

Lemma read_short_write (w : World S) cmd n s1 :
  Write dev (device w) cmd = ((n, None), s1) ->
  n <> Slice.len cmd ->
  read dev cmd w =
  (Return (Result_zero, Some (ShortWrite n (Slice.len cmd))),
   {| device := s1; trace := trace w ++ [EvWrite cmd] |}).
Proof.
  intros HW Hn. run_read. rewrite HW.
  apply Z.eqb_neq in Hn. rewrite Hn. reflexivity.
Qed.

Lemma read_read_failed (w : World S) cmd s1 data rn e s2 :
  Write dev (device w) cmd = ((Slice.len cmd, None), s1) ->
  Read dev s1 (Slice.make cmdSize) = ((data, rn, Some e), s2) ->
  read dev cmd w =
  (Return (Result_zero, Some (ReadFailure e)),
   {| device := s2; trace := trace w ++ exchange_trace cmd |}).
Proof.
  intros HW HR. run_read. rewrite HW, Z.eqb_refl.
  cbn [negb device trace]. rewrite HR.
  cbn [device trace]. rewrite <- !app_assoc. reflexivity.
Qed.

(** After a complete write and a read without error the outcome is decided
    by the nine bytes of the response buffer alone. *)
Lemma read_frame (w : World S) cmd s1 data rn s2 a0 a1 a2 a3 a4 a5 a6 a7 a8 :
  Write dev (device w) cmd = ((Slice.len cmd, None), s1) ->
  Read dev s1 (Slice.make cmdSize) = ((data, rn, None), s2) ->
  copy (Slice.make cmdSize) data = [a0; a1; a2; a3; a4; a5; a6; a7; a8] ->
  read dev cmd w =
  (Return
     (if negb (Byte.eqb a0 xff) || negb (Byte.eqb a1 x86)
      then (Result_zero, Some (InvalidHeader a0 a1))
      else if negb (Byte.eqb a8
                      (byte_of_int
                         (0xFF - (int_of_byte a1 + int_of_byte a2
                                  + int_of_byte a3 + int_of_byte a4
                                  + int_of_byte a5 + int_of_byte a6
                                  + int_of_byte a7) + 1)))
      then (Result_zero, Some (ChecksumMismatch a8))
      else ({| Co2Concentration :=
                 Float32.of_int (int_of_byte a2 * 256 + int_of_byte a3) |},
            None)),
   {| device := s2; trace := trace w ++ exchange_trace cmd |}).
Proof.
  intros HW HR Hresp. run_read. rewrite HW, Z.eqb_refl.
  cbn [negb device trace]. rewrite HR, Hresp.
  cbn [device trace]. rewrite <- !app_assoc. cbn [app].
  change (Slice.len [a0; a1; a2; a3; a4; a5; a6; a7; a8] <? cmdSize) with false.
  cbv iota.
  change (Slice.index [a0; a1; a2; a3; a4; a5; a6; a7; a8] 0) with (Return a0).
  change (Slice.index [a0; a1; a2; a3; a4; a5; a6; a7; a8] 1) with (Return a1).
  change (Slice.index [a0; a1; a2; a3; a4; a5; a6; a7; a8] 2) with (Return a2).
  change (Slice.index [a0; a1; a2; a3; a4; a5; a6; a7; a8] 3) with (Return a3).
  change (Slice.index [a0; a1; a2; a3; a4; a5; a6; a7; a8] 8) with (Return a8).
  rewrite checksum_frame9.
  pose proof (int_of_byte_range a2). pose proof (int_of_byte_range a3).
  unfold exchange_trace.
  destruct (Byte.eqb a0 xff); cbn [negb orb]; [|reflexivity].
  destruct (Byte.eqb a1 x86); cbn [negb orb]; [|reflexivity].
  destruct (Byte.eqb a8 _); cbn [negb]; [|reflexivity].
  unfold GoInt.add, GoInt.mul. unwrap64. reflexivity.
Qed.

End ExchangeFacts.

(** Every call of [read] takes one of four paths, told apart by what the
    transport answers. *)
Ltac read_paths dev cmd w :=
  let n := fresh "n" in
  let werr := fresh "werr" in
  let s1 := fresh "s1" in
  let HW := fresh "HW" in
  let Hn := fresh "Hn" in
  let data := fresh "data" in
  let rn := fresh "rn" in
  let rerr := fresh "rerr" in
  let s2 := fresh "s2" in
  let HR := fresh "HR" in
  let Hresp := fresh "Hresp" in
  destruct (Write dev (device w) cmd) as [[n werr] s1] eqn:HW;
  destruct werr as [?e|];
  [ rewrite (read_send_failed dev w cmd _ _ _ HW)
  | destruct (Z.eq_dec n (Slice.len cmd)) as [->|Hn];
    [ destruct (Read dev s1 (Slice.make cmdSize))
        as [[[data rn] rerr] s2] eqn:HR;
      destruct rerr as [?e|];
      [ rewrite (read_read_failed dev w cmd _ _ _ _ _ HW HR)
      | destruct (response_frame data)
          as (?a0 & ?a1 & ?a2 & ?a3 & ?a4 & ?a5 & ?a6 & ?a7 & ?a8 & Hresp);
        rewrite (read_frame dev w cmd _ _ _ _ _ _ _ _ _ _ _ _ _ HW HR Hresp) ]
    | rewrite (read_short_write dev w cmd _ _ HW Hn) ] ].

(** [read] returns on every transport: no index it takes is out of range. *)
Lemma read_returns {S} (dev : ReadWriter S) cmd (w : World S) :
  exists r e, fst (read dev cmd w) = Return (r, e).
Proof.
  read_paths dev cmd w; cbn [fst]; try (do 2 eexists; reflexivity).
  destruct (negb (Byte.eqb a0 xff) || negb (Byte.eqb a1 x86));
    [do 2 eexists; reflexivity|].
  destruct (negb (Byte.eqb a8 _)); do 2 eexists; reflexivity.
Qed.

(** The length test of [read] sits after a read into a buffer of fixed
    length: the short-response error is returned on no transport. *)
Lemma read_never_short_response {S} (dev : ReadWriter S) cmd (w : World S) :
  forall r n expected,
    fst (read dev cmd w) <> Return (r, Some (ShortResponse n expected)).
Proof.
  intros r k expected.
  read_paths dev cmd w; cbn [fst]; try congruence.
  destruct (negb (Byte.eqb a0 xff) || negb (Byte.eqb a1 x86)); [congruence|].
  destruct (negb (Byte.eqb a8 _)); congruence.
Qed.

(** * The properties of the specification *)

(** C1 (as the code behaves): a transport that accepts the whole command
    and then, reporting no error, stores only the four bytes
    [FF 86 01 79] and reports a count of 4 does not get the short-response
    error from [read]: the count is dropped, the nine-byte buffer (five
    bytes still zero) passes the header and checksum tests and 377 is
    returned as a measurement. *)
Theorem read_short_fill_decodes :
  let dev := scripted (9, None) ([xff; x86; x01; x79], 4, None) in
  exists r,
    fst (read dev command world0) = Return (r, None) /\
    Float32.to_int (Co2Concentration r) = Some 377.
Proof.
  eexists. split; vm_compute; reflexivity.
Qed.

(** C2: on every nine-byte frame [checksum] returns the byte whose value is
    [(0xFF - sum + 1) mod 256], the sum of the bytes at indices 1 to 7 taken
    as an unbounded integer (the 64-bit accumulator never wraps); the byte
    [buildCommand] stores at index 8 is that same value of its own frame. *)
Theorem checksum_is_spec_checksum :
  (forall r, List.length r = 9%nat ->
     exists c, checksum r = Return c /\ int_of_byte c = spec_checksum r) /\
  (exists cmd c8,
     buildCommand = Return cmd /\ Slice.index cmd 8 = Return c8 /\
     int_of_byte c8 = spec_checksum cmd).
Proof.
  split.
  - intros r Hr.
    destruct (length9_inv r Hr)
      as (a0 & a1 & a2 & a3 & a4 & a5 & a6 & a7 & a8 & ->).
    eexists. split; [apply checksum_frame9|].
    rewrite int_of_byte_of_int.
    unfold spec_checksum, spec_sum. cbn [skipn firstn map fold_right].
    f_equal. lia.
  - exists command, x79. repeat split.
Qed.

Lemma checksum_is_spec_checksum_witness :
  exists c, checksum command = Return c /\ int_of_byte c = spec_checksum command.
Proof.
  apply (proj1 checksum_is_spec_checksum command). reflexivity.
Defined.

(** C3: when the transport takes the whole command and its read leaves in
    the buffer a response with byte 0 = 0xFF, byte 1 = 0x86 and byte 8 the
    checksum of the response, [read] returns no error and a measurement
    whose float32 value is exactly [response[2] * 256 + response[3]]; for
    the response [FF 86 03 E8 00 00 00 00 c] with [c] its checksum the
    measurement is exactly 1000. *)
Theorem read_valid_response_exact :
  (forall S (dev : ReadWriter S) (w : World S) cmd s1 data rn s2 resp c,
     Write dev (device w) cmd = ((Slice.len cmd, None), s1) ->
     Read dev s1 (Slice.make cmdSize) = ((data, rn, None), s2) ->
     resp = copy (Slice.make cmdSize) data ->
     Slice.index resp 0 = Return xff ->
     Slice.index resp 1 = Return x86 ->
     checksum resp = Return c ->
     Slice.index resp 8 = Return c ->
     exists r high low,
       fst (read dev cmd w) = Return (r, None) /\
       Slice.index resp 2 = Return high /\
       Slice.index resp 3 = Return low /\
       Float32.to_int (Co2Concentration r)
       = Some (int_of_byte high * 256 + int_of_byte low)) /\
  (forall S (dev : ReadWriter S) (w : World S) cmd s1 rn s2 c,
     Write dev (device w) cmd = ((Slice.len cmd, None), s1) ->
     Read dev s1 (Slice.make cmdSize)
     = (([xff; x86; x03; xe8; x00; x00; x00; x00; c], rn, None), s2) ->
     checksum [xff; x86; x03; xe8; x00; x00; x00; x00; c] = Return c ->
     exists r,
       fst (read dev cmd w) = Return (r, None) /\
       Float32.to_int (Co2Concentration r) = Some 1000).
Proof.
  assert (General :
    forall S (dev : ReadWriter S) (w : World S) cmd s1 data rn s2 resp c,
     Write dev (device w) cmd = ((Slice.len cmd, None), s1) ->
     Read dev s1 (Slice.make cmdSize) = ((data, rn, None), s2) ->
     resp = copy (Slice.make cmdSize) data ->
     Slice.index resp 0 = Return xff ->
     Slice.index resp 1 = Return x86 ->
     checksum resp = Return c ->
     Slice.index resp 8 = Return c ->
     exists r high low,
       fst (read dev cmd w) = Return (r, None) /\
       Slice.index resp 2 = Return high /\
       Slice.index resp 3 = Return low /\
       Float32.to_int (Co2Concentration r)
       = Some (int_of_byte high * 256 + int_of_byte low)).
  { intros S dev w cmd s1 data rn s2 resp c HW HR -> H0 H1 Hc H8.
    destruct (response_frame data)
      as (a0 & a1 & a2 & a3 & a4 & a5 & a6 & a7 & a8 & Hresp).
    rewrite (read_frame dev w cmd _ _ _ _ _ _ _ _ _ _ _ _ _ HW HR Hresp).
    rewrite Hresp in H0, H1, Hc, H8.
    rewrite checksum_frame9 in Hc.
    index9_in H0. index9_in H1. index9_in H8.
    assert (E0 : a0 = xff) by congruence.
    assert (E1 : a1 = x86) by congruence.
    assert (E8 : a8 = c) by congruence.
    assert (Ec : byte_of_int
                   (0xFF - (int_of_byte a1 + int_of_byte a2 + int_of_byte a3
                            + int_of_byte a4 + int_of_byte a5
                            + int_of_byte a6 + int_of_byte a7) + 1) = c)
      by congruence.
    rewrite Ec, E0, E1, E8.
    cbn [fst]. rewrite !eqb_refl. cbn [negb orb].
    pose proof (int_of_byte_range a2). pose proof (int_of_byte_range a3).
    exists {| Co2Concentration :=
                Float32.of_int (int_of_byte a2 * 256 + int_of_byte a3) |}, a2, a3.
    rewrite Hresp.
    do 3 (split; [reflexivity|]).
    cbn [Co2Concentration]. apply float32_exact_uint16. lia. }
  split; [exact General|].
  intros S dev w cmd s1 rn s2 c HW HR Hc.
  destruct (General S dev w cmd s1 _ rn s2 _ c HW HR eq_refl
              eq_refl eq_refl Hc eq_refl)
    as (r & high & low & Hread & H2 & H3 & Hval).
  assert (E2 : high = x03) by (vm_compute in H2; congruence).
  assert (E3 : low = xe8) by (vm_compute in H3; congruence).
  subst high low.
  exists r. split; [exact Hread|exact Hval].
Qed.

Lemma read_valid_response_exact_witness :
  exists r,
    fst (read (scripted (9, None)
                 ([xff; x86; x03; xe8; x00; x00; x00; x00; x8f], 9, None))
           command world0) = Return (r, None) /\
    Float32.to_int (Co2Concentration r) = Some 1000.
Proof.
  apply (proj2 read_valid_response_exact unit
           (scripted (9, None)
              ([xff; x86; x03; xe8; x00; x00; x00; x00; x8f], 9, None))
           world0 command tt 9 tt x8f); reflexivity.
Defined.

(** C4: the frame of [buildCommand] passes its own validation: [checksum]
    of the frame is the byte the frame carries at index 8. *)
Theorem buildCommand_checksum_roundtrip :
  exists cmd c,
    buildCommand = Return cmd /\
    checksum cmd = Return c /\
    Slice.index cmd 8 = Return c.
Proof.
  exists command, x79. repeat split.
Qed.

(** C5: when the write of a nine-byte command reports fewer than nine bytes
    and no error, [read] returns the short-write error and the transport
    has seen the write only: no sleep and no read follow.  On every
    transport the calls are the write alone when the write failed, and
    otherwise the write, the 150 ms sleep and one read, in this order. *)
Theorem read_short_write_stops :
  (forall S (dev : ReadWriter S) (w : World S) cmd n s1,
     Slice.len cmd = 9 ->
     Write dev (device w) cmd = ((n, None), s1) ->
     n < 9 ->
     read dev cmd w =
     (Return (Result_zero, Some (ShortWrite n 9)),
      {| device := s1; trace := trace w ++ [EvWrite cmd] |})) /\
  (forall S (dev : ReadWriter S) (w : World S) cmd n werr s1,
     Write dev (device w) cmd = ((n, werr), s1) ->
     trace (snd (read dev cmd w)) =
     trace w ++
     (if match werr with Some _ => true | None => negb (n =? Slice.len cmd) end
      then [EvWrite cmd]
      else [EvWrite cmd; EvSleep (150 * Millisecond);
            EvRead (Slice.make cmdSize)])).
Proof.
  split.
  - intros S dev w cmd n s1 Hlen HW Hn.
    rewrite (read_short_write dev w cmd n s1 HW) by lia.
    rewrite Hlen. reflexivity.
  - intros S dev w cmd n werr s1 HW'.
    read_paths dev cmd w; injection HW' as <- <- <-; cbn [snd trace].
    + reflexivity.
    + rewrite Z.eqb_refl. reflexivity.
    + rewrite Z.eqb_refl. reflexivity.
    + apply Z.eqb_neq in Hn. rewrite Hn. reflexivity.
Qed.

Lemma read_short_write_stops_witness :
  read (scripted (5, None) ([], 0, None)) command world0 =
  (Return (Result_zero, Some (ShortWrite 5 9)),
   {| device := tt; trace := [EvWrite command] |}).
Proof.
  apply (proj1 read_short_write_stops unit
           (scripted (5, None) ([], 0, None)) world0 command 5 tt).
  - reflexivity.
  - reflexivity.
  - lia.
Defined.

(** C6: when the transport takes the whole command and its read, without
    error, leaves a response whose byte 0 is not 0xFF or whose byte 1 is
    not 0x86, [read] returns the zero result with the invalid-header error
    carrying these two bytes; so it does for every response with byte 0 =
    0x00. *)
Theorem read_invalid_header :
  (forall S (dev : ReadWriter S) (w : World S) cmd s1 data rn s2 resp b0 b1,
     Write dev (device w) cmd = ((Slice.len cmd, None), s1) ->
     Read dev s1 (Slice.make cmdSize) = ((data, rn, None), s2) ->
     resp = copy (Slice.make cmdSize) data ->
     Slice.index resp 0 = Return b0 ->
     Slice.index resp 1 = Return b1 ->
     b0 <> xff \/ b1 <> x86 ->
     fst (read dev cmd w) = Return (Result_zero, Some (InvalidHeader b0 b1))) /\
  (forall S (dev : ReadWriter S) (w : World S) cmd s1 data rn s2 resp,
     Write dev (device w) cmd = ((Slice.len cmd, None), s1) ->
     Read dev s1 (Slice.make cmdSize) = ((data, rn, None), s2) ->
     resp = copy (Slice.make cmdSize) data ->
     Slice.index resp 0 = Return x00 ->
     exists b1,
       fst (read dev cmd w) = Return (Result_zero, Some (InvalidHeader x00 b1))).
Proof.
  assert (General :
    forall S (dev : ReadWriter S) (w : World S) cmd s1 data rn s2 resp b0 b1,
     Write dev (device w) cmd = ((Slice.len cmd, None), s1) ->
     Read dev s1 (Slice.make cmdSize) = ((data, rn, None), s2) ->
     resp = copy (Slice.make cmdSize) data ->
     Slice.index resp 0 = Return b0 ->
     Slice.index resp 1 = Return b1 ->
     b0 <> xff \/ b1 <> x86 ->
     fst (read dev cmd w) = Return (Result_zero, Some (InvalidHeader b0 b1))).
  { intros S dev w cmd s1 data rn s2 resp b0 b1 HW HR -> H0 H1 Hbad.
    destruct (response_frame data)
      as (a0 & a1 & a2 & a3 & a4 & a5 & a6 & a7 & a8 & Hresp).
    rewrite (read_frame dev w cmd _ _ _ _ _ _ _ _ _ _ _ _ _ HW HR Hresp).
    rewrite Hresp in H0, H1. index9_in H0. index9_in H1.
    assert (E0 : a0 = b0) by congruence.
    assert (E1 : a1 = b1) by congruence.
    subst a0 a1. cbn [fst].
    destruct Hbad as [Hb|Hb]; rewrite (eqb_neq _ _ Hb); cbn [negb orb].
    - reflexivity.
    - rewrite orb_true_r. reflexivity. }
  split; [exact General|].
  intros S dev w cmd s1 data rn s2 resp HW HR Hresp H0.
  destruct (response_frame data)
    as (a0 & a1 & a2 & a3 & a4 & a5 & a6 & a7 & a8 & Hframe).
  exists a1.
  apply (General S dev w cmd s1 data rn s2 resp x00 a1 HW HR Hresp H0).
  - rewrite Hresp, Hframe. reflexivity.
  - left. discriminate.
Qed.

Lemma read_invalid_header_witness :
  fst (read (scripted (9, None)
               ([x00; x86; x03; xe8; x00; x00; x00; x00; x8f], 9, None))
         command world0)
  = Return (Result_zero, Some (InvalidHeader x00 x86)).
Proof.
  apply (proj1 read_invalid_header unit
           (scripted (9, None)
              ([x00; x86; x03; xe8; x00; x00; x00; x00; x8f], 9, None))
           world0 command tt
           [x00; x86; x03; xe8; x00; x00; x00; x00; x8f] 9 tt
           [x00; x86; x03; xe8; x00; x00; x00; x00; x8f] x00 x86);
    try reflexivity.
  left. discriminate.
Defined.

(** C7: when the transport takes the whole command and its read, without
    error, leaves a response with byte 0 = 0xFF and byte 1 = 0x86 whose
    byte 8 is not the checksum of the response, [read] returns the zero
    result with the checksum error carrying byte 8. *)
Theorem read_checksum_mismatch :
  forall S (dev : ReadWriter S) (w : World S) cmd s1 data rn s2 resp b8 c,
    Write dev (device w) cmd = ((Slice.len cmd, None), s1) ->
    Read dev s1 (Slice.make cmdSize) = ((data, rn, None), s2) ->
    resp = copy (Slice.make cmdSize) data ->
    Slice.index resp 0 = Return xff ->
    Slice.index resp 1 = Return x86 ->
    Slice.index resp 8 = Return b8 ->
    checksum resp = Return c ->
    b8 <> c ->
    fst (read dev cmd w) = Return (Result_zero, Some (ChecksumMismatch b8)).
Proof.
  intros S dev w cmd s1 data rn s2 resp b8 c HW HR -> H0 H1 H8 Hc Hne.
  destruct (response_frame data)
    as (a0 & a1 & a2 & a3 & a4 & a5 & a6 & a7 & a8 & Hresp).
  rewrite (read_frame dev w cmd _ _ _ _ _ _ _ _ _ _ _ _ _ HW HR Hresp).
  rewrite Hresp in H0, H1, H8, Hc.
  rewrite checksum_frame9 in Hc.
  index9_in H0. index9_in H1. index9_in H8.
  assert (E0 : a0 = xff) by congruence.
  assert (E1 : a1 = x86) by congruence.
  assert (E8 : a8 = b8) by congruence.
  assert (Ec : byte_of_int
                 (0xFF - (int_of_byte a1 + int_of_byte a2 + int_of_byte a3
                          + int_of_byte a4 + int_of_byte a5
                          + int_of_byte a6 + int_of_byte a7) + 1) = c)
    by congruence.
  rewrite Ec, E0, E1, E8. cbn [fst].
  rewrite !eqb_refl, (eqb_neq _ _ Hne). reflexivity.
Qed.

Lemma read_checksum_mismatch_witness :
  fst (read (scripted (9, None)
               ([xff; x86; x03; xe8; x00; x00; x00; x00; x90], 9, None))
         command world0)
  = Return (Result_zero, Some (ChecksumMismatch x90)).
Proof.
  apply (read_checksum_mismatch unit
           (scripted (9, None)
              ([xff; x86; x03; xe8; x00; x00; x00; x00; x90], 9, None))
           world0 command tt
           [xff; x86; x03; xe8; x00; x00; x00; x00; x90] 9 tt
           [xff; x86; x03; xe8; x00; x00; x00; x00; x90] x90 x8f);
    try reflexivity.
  discriminate.
Defined.

(** C8: [buildCommand] takes no input and reads no state; it returns (it
    does not panic) the one frame [FF 01 86 00 00 00 00 00 79]: nine bytes,
    byte 0 = 0xFF, byte 1 = 0x01, byte 2 = 0x86, bytes 3 to 7 = 0x00 and
    byte 8 the checksum over bytes 1 to 7, so any two calls give equal
    frames. *)
Theorem buildCommand_fixed_frame :
  exists cmd,
    buildCommand = Return cmd /\
    Slice.len cmd = 9 /\
    nth_error cmd 0 = Some xff /\
    nth_error cmd 1 = Some x01 /\
    nth_error cmd 2 = Some x86 /\
    nth_error cmd 3 = Some x00 /\
    nth_error cmd 4 = Some x00 /\
    nth_error cmd 5 = Some x00 /\
    nth_error cmd 6 = Some x00 /\
    nth_error cmd 7 = Some x00 /\
    (exists c, nth_error cmd 8 = Some c /\ checksum cmd = Return c /\
               int_of_byte c = spec_checksum cmd) /\
    cmd = [xff; x01; x86; x00; x00; x00; x00; x00; x79].
Proof.
  exists command. repeat split.
  exists x79. repeat split.
Qed.

(** C9: [checksum] reads the bytes at indices 1 to 7 only: two nine-byte
    frames equal at these indices have the same checksum, and overwriting
    byte 0 or byte 8 of a nine-byte frame leaves its checksum as it was. *)
Theorem checksum_reads_1_to_7_only :
  (forall r1 r2,
     List.length r1 = 9%nat -> List.length r2 = 9%nat ->
     (forall i, (1 <= i <= 7)%nat -> nth_error r1 i = nth_error r2 i) ->
     checksum r1 = checksum r2) /\
  (forall r v,
     List.length r = 9%nat ->
     checksum (Slice.update r 0 v) = checksum r /\
     checksum (Slice.update r 8 v) = checksum r).
Proof.
  split.
  - intros r1 r2 H1 H2 Hagree.
    destruct (length9_inv r1 H1)
      as (a0 & a1 & a2 & a3 & a4 & a5 & a6 & a7 & a8 & ->).
    destruct (length9_inv r2 H2)
      as (b0 & b1 & b2 & b3 & b4 & b5 & b6 & b7 & b8 & ->).
    rewrite !checksum_frame9.
    assert (E1 : Some a1 = Some b1) by (apply (Hagree 1%nat); lia).
    assert (E2 : Some a2 = Some b2) by (apply (Hagree 2%nat); lia).
    assert (E3 : Some a3 = Some b3) by (apply (Hagree 3%nat); lia).
    assert (E4 : Some a4 = Some b4) by (apply (Hagree 4%nat); lia).
    assert (E5 : Some a5 = Some b5) by (apply (Hagree 5%nat); lia).
    assert (E6 : Some a6 = Some b6) by (apply (Hagree 6%nat); lia).
    assert (E7 : Some a7 = Some b7) by (apply (Hagree 7%nat); lia).
    congruence.
  - intros r v Hr.
    destruct (length9_inv r Hr)
      as (a0 & a1 & a2 & a3 & a4 & a5 & a6 & a7 & a8 & ->).
    cbn [Slice.update]. rewrite !checksum_frame9. split; reflexivity.
Qed.

Lemma checksum_reads_1_to_7_only_witness :
  checksum (Slice.update command 0 x00) = checksum command /\
  checksum (Slice.update command 8 x00) = checksum command.
Proof.
  apply (proj2 checksum_reads_1_to_7_only command x00). reflexivity.
Defined.

(** C10: whenever [read] returns an error, whichever of its error returns
    it is, the result beside it is the zero value: its only field is
    [+0]. *)
Theorem read_error_zero_result :
  forall S (dev : ReadWriter S) (w : World S) cmd r e,
    fst (read dev cmd w) = Return (r, Some e) ->
    r = Result_zero /\ Float32.to_int (Co2Concentration r) = Some 0.
Proof.
  intros S dev w cmd r e Hread.
  assert (Hr : r = Result_zero).
  { revert Hread.
    read_paths dev cmd w; cbn [fst]; try congruence.
    destruct (negb (Byte.eqb a0 xff) || negb (Byte.eqb a1 x86)); [congruence|].
    destruct (negb (Byte.eqb a8 _)); congruence. }
  subst r. split; reflexivity.
Qed.

Lemma read_error_zero_result_witness :
  Result_zero = Result_zero /\
  Float32.to_int (Co2Concentration Result_zero) = Some 0.
Proof.
  apply (read_error_zero_result unit
           (scripted (9, None) ([xff; x86; x01; x79], 4, Some "EOF"%string))
           world0 command Result_zero (ReadFailure "EOF")).
  reflexivity.
Defined.

(** * Further properties of the code *)

(** ** [checksum] on slices of any length *)

Lemma index_in_range (s : list byte) (i : Z) :
  0 <= i < Slice.len s -> exists b, Slice.index s i = Return b.
Proof.
  intros Hi. unfold Slice.index, Slice.len in *.
  replace (i <? 0) with false by (symmetry; apply Z.ltb_ge; lia).
  replace (Z.of_nat (List.length s) <=? i) with false
    by (symmetry; apply Z.leb_gt; lia).
  cbn [orb].
  destruct (nth_error s (Z.to_nat i)) as [b|] eqn:E; [now exists b|].
  apply nth_error_None in E. lia.
Qed.

Lemma index_out_of_range (s : list byte) (i : Z) :
  Slice.len s <= i -> Slice.index s i = Panic "index out of range".
Proof.
  intros Hi. unfold Slice.index.
  replace (Slice.len s <=? i) with true by (symmetry; apply Z.leb_le; lia).
  rewrite orb_true_r. reflexivity.
Qed.

Lemma sum_loop_returns (r : list byte) (n : nat) :
  forall i sum,
    0 <= i -> i + Z.of_nat n <= Slice.len r ->
    exists sum',
      for_iter n i
        (fun i sum => obind (Slice.index r i)
                        (fun b => Return (GoInt.add sum (int_of_byte b)))) sum
      = Return sum'.
Proof.
  induction n as [|n IH]; intros i sum H0 Hlen.
  - now exists sum.
  - cbn [for_iter].
    destruct (index_in_range r i) as [b Hb]; [lia|].
    rewrite Hb. cbn [obind]. apply IH; lia.
Qed.

Lemma sum_loop_panics (r : list byte) (n : nat) :
  forall i sum,
    (0 < n)%nat -> 0 <= i -> Slice.len r < i + Z.of_nat n ->
    for_iter n i
      (fun i sum => obind (Slice.index r i)
                      (fun b => Return (GoInt.add sum (int_of_byte b)))) sum
    = Panic "index out of range".
Proof.
  induction n as [|n IH]; intros i sum Hn H0 Hlen.
  - lia.
  - cbn [for_iter].
    destruct (Z_lt_le_dec i (Slice.len r)) as [Hin|Hout].
    + destruct (index_in_range r i) as [b Hb]; [lia|].
      rewrite Hb. cbn [obind]. apply IH; lia.
    + rewrite (index_out_of_range r i Hout). reflexivity.
Qed.

(** X1: [checksum] reads index 7 whatever the slice: it returns a byte on
    every slice of at least eight bytes and panics with an index out of
    range on every shorter one. *)
Theorem checksum_bounds :
  forall r : list byte,
    (8 <= Slice.len r -> exists c, checksum r = Return c) /\
    (Slice.len r < 8 -> checksum r = Panic "index out of range").
Proof.
  intros r. unfold checksum, for_loop.
  change (Z.to_nat (8 - 1)) with 7%nat.
  split; intros Hlen.
  - destruct (sum_loop_returns r 7 1 0) as [sum' Hsum]; [lia|lia|].
    rewrite Hsum. cbn [obind]. eexists. reflexivity.
  - rewrite (sum_loop_panics r 7 1 0); [reflexivity|lia|lia|lia].
Qed.

Lemma checksum_bounds_witness :
  (exists c, checksum command = Return c) /\
  checksum [xff; x86; x01; x79] = Panic "index out of range".
Proof.
  split.
  - apply (proj1 (checksum_bounds command)). vm_compute. discriminate.
  - apply (proj2 (checksum_bounds [xff; x86; x01; x79])). reflexivity.
Defined.

(** The sum of the bytes at indices 1 to 8 of a nine-byte frame. *)
Lemma checksum_frame9_int (a0 a1 a2 a3 a4 a5 a6 a7 a8 : byte) :
  exists c,
    checksum [a0; a1; a2; a3; a4; a5; a6; a7; a8] = Return c /\
    int_of_byte c =
    (256 - (int_of_byte a1 + int_of_byte a2 + int_of_byte a3 + int_of_byte a4
            + int_of_byte a5 + int_of_byte a6 + int_of_byte a7)) mod 256.
Proof.
  eexists. split; [apply checksum_frame9|].
  rewrite int_of_byte_of_int. f_equal. lia.
Qed.

(** A nine-byte frame and the checksum it carries. *)
Lemma frame_valid_sum (r : list byte) :
  List.length r = 9%nat ->
  (exists c, checksum r = Return c /\ Slice.index r 8 = Return c) <->
  fold_right Z.add 0 (map int_of_byte (skipn 1 r)) mod 256 = 0.
Proof.
  intros Hr.
  destruct (length9_inv r Hr)
    as (a0 & a1 & a2 & a3 & a4 & a5 & a6 & a7 & a8 & ->).
  cbn [skipn map fold_right].
  destruct (checksum_frame9_int a0 a1 a2 a3 a4 a5 a6 a7 a8) as (c & Hc & Hv).
  pose proof (int_of_byte_range a8) as R8.
  pose proof (int_of_byte_range c) as Rc.
  split.
  - intros (c' & Hc' & H8).
    assert (E8 : Slice.index [a0; a1; a2; a3; a4; a5; a6; a7; a8] 8 = Return a8)
      by reflexivity.
    assert (a8 = c) by congruence. subst a8.
    revert Hv. generalize (int_of_byte c). intros v Hv.
    Z.div_mod_to_equations. lia.
  - intros Hsum. exists c. split; [exact Hc|].
    assert (E : c = a8).
    { apply int_of_byte_inj. rewrite Hv.
      revert Hsum R8. generalize (int_of_byte a8). intros v Hsum R8.
      Z.div_mod_to_equations. lia. }
    subst c. reflexivity.
Qed.

(** X2: a nine-byte frame carries its own checksum at index 8 exactly when
    the bytes at indices 1 to 8 add up to a multiple of 256. *)
Theorem checksum_valid_iff_sum_zero :
  forall r : list byte,
    List.length r = 9%nat ->
    (exists c, checksum r = Return c /\ Slice.index r 8 = Return c) <->
    fold_right Z.add 0 (map int_of_byte (skipn 1 r)) mod 256 = 0.
Proof. exact frame_valid_sum. Qed.

Lemma checksum_valid_iff_sum_zero_witness :
  exists c, checksum command = Return c /\ Slice.index command 8 = Return c.
Proof.
  apply (proj2 (checksum_valid_iff_sum_zero command eq_refl)). reflexivity.
Defined.

(** X3: the checksum tells every single-byte error: when a nine-byte frame
    carries its own checksum, the frame with one byte at an index from 1
    to 8 replaced by a different byte does not. *)
Theorem checksum_detects_single_byte_error :
  forall (r : list byte) (i : nat) (old v : byte),
    List.length r = 9%nat ->
    (exists c, checksum r = Return c /\ Slice.index r 8 = Return c) ->
    (1 <= i <= 8)%nat ->
    nth_error r i = Some old ->
    v <> old ->
    ~ (exists c, checksum (Slice.update r i v) = Return c /\
                 Slice.index (Slice.update r i v) 8 = Return c).
Proof.
  intros r i old v Hr Hvalid Hi Hold Hne Hvalid'.
  destruct (length9_inv r Hr)
    as (a0 & a1 & a2 & a3 & a4 & a5 & a6 & a7 & a8 & ->).
  apply (frame_valid_sum _ Hr) in Hvalid.
  assert (Hneq : int_of_byte v <> int_of_byte old)
    by (intros E; apply Hne, int_of_byte_inj, E).
  pose proof (int_of_byte_range v) as Rv.
  pose proof (int_of_byte_range old) as Ro.
  assert (Hcases : (i = 1 \/ i = 2 \/ i = 3 \/ i = 4 \/ i = 5 \/ i = 6
                    \/ i = 7 \/ i = 8)%nat) by lia.
  destruct Hcases as [->|[->|[->|[->|[->|[->|[->| ->]]]]]]];
    cbn [nth_error] in Hold; injection Hold as ->;
    cbn [Slice.update] in Hvalid';
    apply frame_valid_sum in Hvalid'; try reflexivity;
    cbn [skipn map fold_right] in Hvalid, Hvalid';
    revert Hvalid Hvalid' Hneq Rv Ro;
    generalize (int_of_byte v);
    repeat match goal with
           | |- context [int_of_byte ?b] => generalize (int_of_byte b)
           end;
    intros; Z.div_mod_to_equations; lia.
Qed.

Lemma checksum_detects_single_byte_error_witness :
  ~ (exists c, checksum (Slice.update command 2 x87) = Return c /\
               Slice.index (Slice.update command 2 x87) 8 = Return c).
Proof.
  apply (checksum_detects_single_byte_error command 2 x86 x87).
  - reflexivity.
  - exists x79. split; reflexivity.
  - lia.
  - reflexivity.
  - discriminate.
Defined.

(** ** When [read] succeeds *)

(** After a complete write and a read without error, [read] returns a
    measurement exactly when the buffer starts with [FF 86] and its bytes
    1 to 8 add up to a multiple of 256. *)
Lemma read_success_iff_frame {S} (dev : ReadWriter S) (w : World S)
    cmd s1 data rn s2 a0 a1 a2 a3 a4 a5 a6 a7 a8 :
  Write dev (device w) cmd = ((Slice.len cmd, None), s1) ->
  Read dev s1 (Slice.make cmdSize) = ((data, rn, None), s2) ->
  copy (Slice.make cmdSize) data = [a0; a1; a2; a3; a4; a5; a6; a7; a8] ->
  (exists r, fst (read dev cmd w) = Return (r, None)) <->
  a0 = xff /\ a1 = x86 /\
  (int_of_byte a1 + (int_of_byte a2 + (int_of_byte a3 + (int_of_byte a4
   + (int_of_byte a5 + (int_of_byte a6 + (int_of_byte a7
   + (int_of_byte a8 + 0)))))))) mod 256 = 0.
Proof.
  intros HW HR Hresp.
  rewrite (read_frame dev w cmd _ _ _ _ _ _ _ _ _ _ _ _ _ HW HR Hresp).
  cbn [fst].
  pose proof (frame_valid_sum [a0; a1; a2; a3; a4; a5; a6; a7; a8] eq_refl)
    as Hsum.
  rewrite checksum_frame9 in Hsum. cbn [skipn map fold_right] in Hsum.
  destruct (Byte.byte_eq_dec a0 xff) as [->|N0].
  2: { rewrite (eqb_neq _ _ N0). cbn [negb orb].
       split; [intros [r Hr]; discriminate Hr|intros (E & _); contradiction]. }
  destruct (Byte.byte_eq_dec a1 x86) as [->|N1].
  2: { rewrite eqb_refl, (eqb_neq _ _ N1). cbn [negb orb].
       split; [intros [r Hr]; discriminate Hr|intros (_ & E & _); contradiction]. }
  rewrite !eqb_refl. cbn [negb orb].
  match goal with
  | |- context [Byte.eqb a8 ?c] => destruct (Byte.byte_eq_dec a8 c) as [E8|N8]
  end.
  - rewrite <- E8, eqb_refl. cbn [negb].
    split.
    + intros _. repeat split. apply Hsum. eexists. split; [reflexivity|].
      rewrite <- E8. reflexivity.
    + intros _. eexists. reflexivity.
  - rewrite (eqb_neq _ _ N8). cbn [negb].
    split; [intros [r Hr]; discriminate Hr|].
    intros (_ & _ & Hs). exfalso. apply N8.
    apply Hsum in Hs. destruct Hs as (c & Hc & H8).
    change (Slice.index [xff; x86; a2; a3; a4; a5; a6; a7; a8] 8)
      with (Return a8) in H8.
    congruence.
Qed.

(** What a measurement returned by [read] tells about the exchange. *)
Lemma read_success_inv :
  forall S (dev : ReadWriter S) (w : World S) cmd r,
    fst (read dev cmd w) = Return (r, None) ->
    exists s1 data rn s2 high low,
      Write dev (device w) cmd = ((Slice.len cmd, None), s1) /\
      Read dev s1 (Slice.make cmdSize) = ((data, rn, None), s2) /\
      Slice.index (copy (Slice.make cmdSize) data) 0 = Return xff /\
      Slice.index (copy (Slice.make cmdSize) data) 1 = Return x86 /\
      (exists c, checksum (copy (Slice.make cmdSize) data) = Return c /\
                 Slice.index (copy (Slice.make cmdSize) data) 8 = Return c) /\
      Slice.index (copy (Slice.make cmdSize) data) 2 = Return high /\
      Slice.index (copy (Slice.make cmdSize) data) 3 = Return low /\
      Float32.to_int (Co2Concentration r)
      = Some (int_of_byte high * 256 + int_of_byte low) /\
      0 <= int_of_byte high * 256 + int_of_byte low <= 65535 /\
      snd (read dev cmd w)
      = {| device := s2; trace := trace w ++ exchange_trace cmd |}.
Proof.
  intros S dev w cmd r.
  read_paths dev cmd w; cbn [fst snd]; try discriminate.
  intros Hread.
  exists s1, data, rn, s2, a2, a3.
  rewrite Hresp.
  destruct (Byte.byte_eq_dec a0 xff) as [->|N0];
    [|rewrite (eqb_neq _ _ N0) in Hread; discriminate Hread].
  destruct (Byte.byte_eq_dec a1 x86) as [->|N1];
    [|rewrite eqb_refl, (eqb_neq _ _ N1) in Hread; discriminate Hread].
  rewrite !eqb_refl in Hread. cbn [negb orb] in Hread.
  rewrite checksum_frame9.
  pose proof (int_of_byte_range a2). pose proof (int_of_byte_range a3).
  match type of Hread with
  | context [Byte.eqb a8 ?c] => destruct (Byte.byte_eq_dec a8 c) as [E8|N8]
  end.
  - rewrite <- E8, eqb_refl in Hread. cbn [negb] in Hread.
    assert (Er : r = {| Co2Concentration :=
                          Float32.of_int (int_of_byte a2 * 256 + int_of_byte a3) |})
      by congruence.
    subst r. cbn [Co2Concentration].
    split; [first [exact HW|reflexivity]|].
    split; [exact HR|].
    do 2 (split; [reflexivity|]).
    split; [exists a8; split; [f_equal; symmetry; exact E8|reflexivity]|].
    do 2 (split; [reflexivity|]).
    split; [apply float32_exact_uint16; lia|].
    split; [lia|reflexivity].
  - rewrite (eqb_neq _ _ N8) in Hread. discriminate Hread.
Qed.

(** X4: [read] returns a measurement only after a complete exchange on a
    well-formed response: the write took the whole command without error,
    the read reported no error, the buffer starts with [FF 86] and carries
    its checksum at index 8; the measurement is [response[2] * 256 +
    response[3]], between 0 and 65535, and the transport has seen the
    write, the sleep and the read. *)
Theorem read_success_sound :
  forall S (dev : ReadWriter S) (w : World S) cmd r,
    fst (read dev cmd w) = Return (r, None) ->
    exists s1 data rn s2 high low,
      Write dev (device w) cmd = ((Slice.len cmd, None), s1) /\
      Read dev s1 (Slice.make cmdSize) = ((data, rn, None), s2) /\
      Slice.index (copy (Slice.make cmdSize) data) 0 = Return xff /\
      Slice.index (copy (Slice.make cmdSize) data) 1 = Return x86 /\
      (exists c, checksum (copy (Slice.make cmdSize) data) = Return c /\
                 Slice.index (copy (Slice.make cmdSize) data) 8 = Return c) /\
      Slice.index (copy (Slice.make cmdSize) data) 2 = Return high /\
      Slice.index (copy (Slice.make cmdSize) data) 3 = Return low /\
      Float32.to_int (Co2Concentration r)
      = Some (int_of_byte high * 256 + int_of_byte low) /\
      0 <= int_of_byte high * 256 + int_of_byte low <= 65535 /\
      snd (read dev cmd w)
      = {| device := s2; trace := trace w ++ exchange_trace cmd |}.
Proof. exact read_success_inv. Qed.

Lemma read_success_sound_witness :
  exists s1 data rn s2 high low,
    Write (scripted (9, None)
             ([xff; x86; x03; xe8; x00; x00; x00; x00; x8f], 9, None))
      (device world0) command = ((Slice.len command, None), s1) /\
    Read (scripted (9, None)
            ([xff; x86; x03; xe8; x00; x00; x00; x00; x8f], 9, None))
      s1 (Slice.make cmdSize) = ((data, rn, None), s2) /\
    Slice.index (copy (Slice.make cmdSize) data) 0 = Return xff /\
    Slice.index (copy (Slice.make cmdSize) data) 1 = Return x86 /\
    (exists c, checksum (copy (Slice.make cmdSize) data) = Return c /\
               Slice.index (copy (Slice.make cmdSize) data) 8 = Return c) /\
    Slice.index (copy (Slice.make cmdSize) data) 2 = Return high /\
    Slice.index (copy (Slice.make cmdSize) data) 3 = Return low /\
    Float32.to_int (Float32.of_int 1000)
    = Some (int_of_byte high * 256 + int_of_byte low) /\
    0 <= int_of_byte high * 256 + int_of_byte low <= 65535 /\
    snd (read (scripted (9, None)
                 ([xff; x86; x03; xe8; x00; x00; x00; x00; x8f], 9, None))
           command world0)
    = {| device := s2; trace := trace world0 ++ exchange_trace command |}.
Proof.
  apply (read_success_sound unit
           (scripted (9, None)
              ([xff; x86; x03; xe8; x00; x00; x00; x00; x8f], 9, None))
           world0 command {| Co2Concentration := Float32.of_int 1000 |}).
  vm_compute. reflexivity.
Defined.

(** X5: when the transport, reporting no error, stores at most eight bytes,
    [read] still returns a measurement exactly when these bytes start with
    [FF 86] and those from index 1 on add up to a multiple of 256: byte 8
    of the buffer is the zero it was made with. *)
Theorem read_short_fill_accepted_iff :
  forall S (dev : ReadWriter S) (w : World S) cmd s1 data rn s2,
    Write dev (device w) cmd = ((Slice.len cmd, None), s1) ->
    Read dev s1 (Slice.make cmdSize) = ((data, rn, None), s2) ->
    (List.length data <= 8)%nat ->
    (exists r, fst (read dev cmd w) = Return (r, None)) <->
    nth_error data 0 = Some xff /\ nth_error data 1 = Some x86 /\
    fold_right Z.add 0 (map int_of_byte (skipn 1 data)) mod 256 = 0.
Proof.
  intros S dev w cmd s1 data rn s2 HW HR Hlen.
  assert (Hz : int_of_byte x00 = 0) by reflexivity.
  do 9 (destruct data as [|? data];
        [ rewrite (read_success_iff_frame dev w cmd _ _ _ _ _ _ _ _ _ _ _ _ _
                     HW HR eq_refl);
          cbn [nth_error skipn map fold_right]; rewrite ?Hz;
          split;
          [ intros (E0 & E1 & Hs); try discriminate E0; try discriminate E1;
            subst; repeat split;
            rewrite <- Hs; f_equal; lia
          | intros (E0 & E1 & Hs); try discriminate E0; try discriminate E1;
            repeat match goal with
                   | H : Some _ = Some _ |- _ => injection H as ->
                   end;
            repeat split;
            rewrite <- Hs; f_equal; lia ]
        | ]).
  cbn [List.length] in Hlen. lia.
Qed.

Lemma read_short_fill_accepted_iff_witness :
  exists r,
    fst (read (scripted (9, None) ([xff; x86; x01; x79], 4, None))
           command world0) = Return (r, None).
Proof.
  apply (proj2 (read_short_fill_accepted_iff unit
                  (scripted (9, None) ([xff; x86; x01; x79], 4, None))
                  world0 command tt [xff; x86; x01; x79] 4 tt
                  eq_refl eq_refl ltac:(cbn; lia))).
  repeat split.
Defined.

(** ** [doIt]: one exchange, logged and stored *)

(** X6: [doIt] returns on every transport, and when the exchange fails,
    whichever error [read] gives, it logs that error and calls neither the
    clock nor the store. *)
Theorem doIt_error_stores_nothing :
  forall S E L (c : ReadWriter S) cmd (db : Influx E L) client info (loc : L)
         (a : App S E),
    exists a',
      doIt c cmd db client info loc a = (Return tt, a') /\
      io a' = snd (read c cmd (io a)) /\
      (forall r e,
         fst (read c cmd (io a)) = Return (r, Some e) ->
         ext a' = ext a /\ logged a' = logged a ++ [LogErrorReading e]).
Proof.
  intros S E L c cmd db client info loc a.
  unfold doIt.
  destruct (read_returns c cmd (io a)) as (r & err & Hread).
  destruct (read c cmd (io a)) as [o w'] eqn:Hrun.
  cbn [fst snd] in *. subst o.
  destruct err as [e|].
  - eexists. split; [reflexivity|]. cbn [io ext logged].
    split; [reflexivity|].
    intros r' e' Heq. injection Heq as _ <-. split; reflexivity.
  - unfold send. cbn [io ext logged].
    destruct (Now db (ext a)) as [now e1].
    destruct (WritePoint db e1 client (Org info) (Bucket info) _) as [[werr|] e2];
      (eexists; split; [reflexivity|]; cbn [io]; split; [reflexivity|];
       intros r' e' Heq; discriminate Heq).
Qed.

Lemma doIt_error_stores_nothing_witness :
  exists a',
    doIt (scripted (5, None) ([], 0, None)) command
      {| WritePoint := fun (e : nat) _ _ _ (_ : Point unit) => (None, S e);
         Now := fun e => (0, e) |}
      {| serverURL := "u"; authToken := "t" |}
      {| Org := "o"; Bucket := "b" |} tt
      {| io := world0; logged := []; ext := 0%nat |}
    = (Return tt, a') /\
    ext a' = 0%nat /\
    logged a' = [LogErrorReading (ShortWrite 5 9)].
Proof.
  destruct (doIt_error_stores_nothing unit nat unit
              (scripted (5, None) ([], 0, None)) command
              {| WritePoint := fun (e : nat) _ _ _ (_ : Point unit) => (None, S e);
                 Now := fun e => (0, e) |}
              {| serverURL := "u"; authToken := "t" |}
              {| Org := "o"; Bucket := "b" |} tt
              {| io := world0; logged := []; ext := 0%nat |})
    as (a' & Hrun & _ & Herr).
  exists a'. split; [exact Hrun|].
  apply (Herr Result_zero (ShortWrite 5 9)). reflexivity.
Defined.

(** X7: when the exchange gives a measurement, [doIt] logs it, reads the
    clock once and writes one point: measurement [sensor_data], tag
    [sensor = MH-Z19C], the single field [co2_concentration] holding the
    measurement (an integer between 0 and 65535), stamped with the instant
    read, in the location given, for the organisation and bucket given.
    An error of the write is logged and [doIt] returns all the same. *)
Theorem doIt_stores_measurement :
  forall S E L (c : ReadWriter S) cmd (db : Influx E L) client info (loc : L)
         (a : App S E) r now e1 werr e2,
    fst (read c cmd (io a)) = Return (r, None) ->
    Now db (ext a) = (now, e1) ->
    WritePoint db e1 client (Org info) (Bucket info)
      {| measurement := "sensor_data";
         tags := [("sensor", "MH-Z19C")]%string;
         fields := [("co2_concentration"%string, Co2Concentration r)];
         ts := {| instant := now; zone := loc |} |} = (werr, e2) ->
    doIt c cmd db client info loc a
    = (Return tt,
       {| io := snd (read c cmd (io a));
          logged := logged a ++ [LogCo2 (Co2Concentration r)]
                      ++ match werr with
                         | Some e => [LogWritePoint e]
                         | None => []
                         end;
          ext := e2 |}) /\
    exists v, Float32.to_int (Co2Concentration r) = Some v /\ 0 <= v <= 65535.
Proof.
  intros S E L c cmd db client info loc a r now e1 werr e2 Hread Hnow Hwrite.
  split.
  - unfold doIt.
    destruct (read c cmd (io a)) as [o w'].
    cbn [fst snd] in *. subst o.
    unfold send. cbn [io ext logged].
    rewrite Hnow, Hwrite.
    destruct werr as [e|].
    + rewrite <- app_assoc. reflexivity.
    + rewrite app_nil_r. reflexivity.
  - destruct (read_success_inv S c (io a) cmd r Hread)
      as (s1 & data & rn & s2 & high & low & _ & _ & _ & _ & _ & _ & _
          & Hval & Hrange & _).
    eexists. split; [exact Hval|exact Hrange].
Qed.

Lemma doIt_stores_measurement_witness :
  doIt (scripted (9, None)
          ([xff; x86; x03; xe8; x00; x00; x00; x00; x8f], 9, None)) command
    {| WritePoint :=
         fun (e : list (Point unit)) _ _ _ p => (Some "timeout"%string, p :: e);
       Now := fun e => (7, e) |}
    {| serverURL := "u"; authToken := "t" |}
    {| Org := "o"; Bucket := "b" |} tt
    {| io := world0; logged := []; ext := [] |}
  = (Return tt,
     {| io := snd (read (scripted (9, None)
                      ([xff; x86; x03; xe8; x00; x00; x00; x00; x8f], 9, None))
                     command world0);
        logged := [LogCo2 (Float32.of_int 1000); LogWritePoint "timeout"];
        ext := [{| measurement := "sensor_data";
                   tags := [("sensor", "MH-Z19C")]%string;
                   fields := [("co2_concentration"%string, Float32.of_int 1000)];
                   ts := {| instant := 7; zone := tt |} |}] |}).
Proof.
  apply (doIt_stores_measurement unit (list (Point unit)) unit
           (scripted (9, None)
              ([xff; x86; x03; xe8; x00; x00; x00; x00; x8f], 9, None)) command
           {| WritePoint :=
                fun (e : list (Point unit)) _ _ _ p =>
                  (Some "timeout"%string, p :: e);
              Now := fun e => (7, e) |}
           {| serverURL := "u"; authToken := "t" |}
           {| Org := "o"; Bucket := "b" |} tt
           {| io := world0; logged := []; ext := [] |}
           {| Co2Concentration := Float32.of_int 1000 |} 7 []
           (Some "timeout"%string)); reflexivity.
Defined.

(** ** The loop that only logs *)

Lemma count_app {A} (p : A -> bool) (l1 l2 : list A) :
  count p (l1 ++ l2) = (count p l1 + count p l2)%nat.
Proof. unfold count. rewrite filter_app, length_app. reflexivity. Qed.

(** One iteration: it returns, and either the exchange failed, an error is
    logged and nothing follows the exchange, or a measurement is logged and
    a sleep of one second follows the complete exchange. *)
Lemma main_iteration_cases {S} (c : ReadWriter S) cmd (w : World S) lg :
  exists w' lg',
    main_iteration c cmd (w, lg) = (Return tt, (w', lg')) /\
    ((exists e tr,
        lg' = lg ++ [LogError e] /\ trace w' = trace w ++ EvWrite cmd :: tr /\
        count is_write tr = 0%nat /\ count (is_sleep Second) tr = 0%nat) \/
     (exists v,
        lg' = lg ++ [LogCo2 v] /\
        trace w' = trace w ++ exchange_trace cmd ++ [EvSleep Second])).
Proof.
  unfold main_iteration.
  read_paths c cmd w.
  - do 2 eexists. split; [reflexivity|]. left.
    exists (SendFailed e), []. repeat split.
  - do 2 eexists. split; [reflexivity|]. left.
    exists (ReadFailure e), (tl (exchange_trace cmd)). repeat split.
  - destruct (negb (Byte.eqb a0 xff) || negb (Byte.eqb a1 x86)).
    + do 2 eexists. split; [reflexivity|]. left.
      exists (InvalidHeader a0 a1), (tl (exchange_trace cmd)). repeat split.
    + destruct (negb (Byte.eqb a8 _)).
      * do 2 eexists. split; [reflexivity|]. left.
        exists (ChecksumMismatch a8), (tl (exchange_trace cmd)). repeat split.
      * do 2 eexists. split; [reflexivity|]. right.
        eexists. split; [reflexivity|].
        cbn [Sleep log fst snd trace]. rewrite <- app_assoc. reflexivity.
  - do 2 eexists. split; [reflexivity|]. left.
    exists (ShortWrite n (Slice.len cmd)), []. repeat split.
Qed.

Lemma main_loop_counts {S} (c : ReadWriter S) cmd (k : nat) :
  forall st : World S * list LogLine,
  exists st',
    main_loop c cmd k st = (Return tt, st') /\
    count is_write (trace (fst st'))
    = (count is_write (trace (fst st)) + k)%nat /\
    List.length (snd st') = (List.length (snd st) + k)%nat /\
    (count (is_sleep Second) (trace (fst st')) + count is_co2_line (snd st)
     = count (is_sleep Second) (trace (fst st)) + count is_co2_line (snd st'))%nat.
Proof.
  induction k as [|k IH]; intros [w lg].
  - exists (w, lg). cbn [main_loop fst snd]. repeat split; lia.
  - cbn [main_loop].
    destruct (main_iteration_cases c cmd w lg) as (w1 & lg1 & Hit & Hcases).
    rewrite Hit.
    destruct (IH (w1, lg1)) as (st' & Hloop & Hw & Hl & Hs).
    exists st'. split; [exact Hloop|].
    cbn [fst snd] in *.
    destruct Hcases as [(e & tr & -> & Htr & Hnw & Hns)|(v & -> & Htr)];
      rewrite Htr in Hw, Hs.
    + rewrite count_app in Hw, Hs. rewrite count_app in Hs.
      rewrite length_app in Hl.
      change (EvWrite cmd :: tr) with ([EvWrite cmd] ++ tr) in Hw, Hs.
      rewrite count_app in Hw, Hs. rewrite Hnw in Hw. rewrite Hns in Hs.
      cbn in Hw, Hs, Hl. repeat split; lia.
    + rewrite !count_app in Hw. rewrite !count_app in Hs.
      rewrite length_app in Hl.
      cbn in Hw, Hs, Hl. repeat split; lia.
Qed.

(** X8: the first [k] iterations of the loop never panic; they make exactly
    [k] writes to the transport, one per iteration, and log exactly [k]
    lines. *)
Theorem main_loop_one_write_per_iteration :
  forall S (c : ReadWriter S) cmd (k : nat) (st : World S * list LogLine),
  exists st',
    main_loop c cmd k st = (Return tt, st') /\
    count is_write (trace (fst st'))
    = (count is_write (trace (fst st)) + k)%nat /\
    List.length (snd st') = (List.length (snd st) + k)%nat.
Proof.
  intros S c cmd k st.
  destruct (main_loop_counts c cmd k st) as (st' & H1 & H2 & H3 & _).
  exists st'. repeat split; assumption.
Qed.

(** X9: the loop sleeps its second only after a measurement: over any
    number of iterations the one-second sleeps added to the trace are as
    many as the measurement lines added to the log, so an iteration whose
    exchange failed is followed at once by the next write. *)
Theorem main_loop_sleeps_only_after_success :
  forall S (c : ReadWriter S) cmd (k : nat) (st : World S * list LogLine),
  exists st',
    main_loop c cmd k st = (Return tt, st') /\
    (count (is_sleep Second) (trace (fst st')) + count is_co2_line (snd st)
     = count (is_sleep Second) (trace (fst st)) + count is_co2_line (snd st'))%nat.
Proof.
  intros S c cmd k st.
  destruct (main_loop_counts c cmd k st) as (st' & H1 & _ & _ & H4).
  exists st'. split; assumption.
Qed.

(** X10: on a transport whose every write reports an error the loop never
    sleeps and never reads: [k] iterations are [k] writes of the command
    back to back. *)
Theorem main_loop_retries_without_pause :
  forall S (c : ReadWriter S) cmd,
    (forall s p, exists n e s', Write c s p = ((n, Some e), s')) ->
    forall (k : nat) (st : World S * list LogLine),
    exists st',
      main_loop c cmd k st = (Return tt, st') /\
      trace (fst st') = trace (fst st) ++ repeat (EvWrite cmd) k.
Proof.
  intros S c cmd Hfail k.
  induction k as [|k IH]; intros [w lg].
  - exists (w, lg). cbn [main_loop fst repeat]. rewrite app_nil_r.
    split; reflexivity.
  - cbn [main_loop]. unfold main_iteration.
    destruct (Hfail (device w) cmd) as (n & e & s' & HW).
    rewrite (read_send_failed c w cmd n e s' HW).
    destruct (IH ({| device := s'; trace := trace w ++ [EvWrite cmd] |},
                  lg ++ [LogError (SendFailed e)])) as (st' & Hloop & Htr).
    exists st'. split; [exact Hloop|].
    rewrite Htr. cbn [fst trace repeat]. rewrite <- app_assoc. reflexivity.
Qed.

Lemma main_loop_retries_without_pause_witness :
  exists st',
    main_loop (scripted (0, Some "EIO"%string) ([], 0, None)) command 3
      (world0, []) = (Return tt, st') /\
    trace (fst st') = [EvWrite command; EvWrite command; EvWrite command].
Proof.
  apply (main_loop_retries_without_pause unit
           (scripted (0, Some "EIO"%string) ([], 0, None)) command
           (fun s _ => ex_intro _ 0 (ex_intro _ "EIO"%string
                         (ex_intro _ s eq_refl)))
           3%nat (world0, [])).
Defined.

(** ** Start-up *)

(** X11: [initSleepDuration] falls back to 60 seconds when the variable is
    not set (given that [Atoi] reads "60" as 60), when [Atoi] reports an
    error and when the value read is zero or negative; a value from 1 to
    9223372036 gives that many seconds, a positive duration. *)
Theorem initSleepDuration_fallbacks :
  forall (Atoi : string -> Z * option string) (env : Env),
    (env "SLEEP_DURATION_SECONDS"%string = None ->
     Atoi "60"%string = (60, None) ->
     fst (initSleepDuration Atoi env) = 60 * Second) /\
    (forall s v e,
       env "SLEEP_DURATION_SECONDS"%string = Some s ->
       Atoi s = (v, Some e) ->
       fst (initSleepDuration Atoi env) = 60 * Second) /\
    (forall s v,
       env "SLEEP_DURATION_SECONDS"%string = Some s ->
       Atoi s = (v, None) -> v <= 0 ->
       fst (initSleepDuration Atoi env) = 60 * Second) /\
    (forall s v,
       env "SLEEP_DURATION_SECONDS"%string = Some s ->
       Atoi s = (v, None) -> 0 < v <= 9223372036 ->
       fst (initSleepDuration Atoi env) = v * Second /\
       0 < fst (initSleepDuration Atoi env)).
Proof.
  intros Atoi env. unfold initSleepDuration, LookupEnv.
  split; [|split; [|split]].
  - intros Hunset H60. rewrite Hunset. cbn [negb]. rewrite H60. reflexivity.
  - intros s v e Hset Hatoi. rewrite Hset. cbn [negb]. rewrite Hatoi.
    reflexivity.
  - intros s v Hset Hatoi Hv. rewrite Hset. cbn [negb]. rewrite Hatoi.
    apply Z.leb_le in Hv. rewrite Hv. reflexivity.
  - intros s v Hset Hatoi Hv. rewrite Hset. cbn [negb]. rewrite Hatoi.
    replace (v <=? 0) with false by (symmetry; apply Z.leb_gt; lia).
    cbn [fst]. unfold GoInt.mul, Second. rewrite wrap64_small; lia.
Qed.

Lemma initSleepDuration_fallbacks_witness :
  fst (initSleepDuration Strconv.Atoi (env_of [])) = 60 * Second /\
  fst (initSleepDuration Strconv.Atoi
         (env_of [("SLEEP_DURATION_SECONDS", "1m")]%string)) = 60 * Second /\
  fst (initSleepDuration Strconv.Atoi
         (env_of [("SLEEP_DURATION_SECONDS", "-5")]%string)) = 60 * Second /\
  fst (initSleepDuration Strconv.Atoi
         (env_of [("SLEEP_DURATION_SECONDS", "5")]%string)) = 5 * Second.
Proof.
  split; [|split; [|split]].
  - apply (proj1 (initSleepDuration_fallbacks Strconv.Atoi (env_of [])));
      reflexivity.
  - apply (proj1 (proj2 (initSleepDuration_fallbacks Strconv.Atoi
                           (env_of [("SLEEP_DURATION_SECONDS", "1m")]%string)))
             "1m"%string 0
             (Strconv.syntax_error "1m")); reflexivity.
  - apply (proj1 (proj2 (proj2 (initSleepDuration_fallbacks Strconv.Atoi
                           (env_of [("SLEEP_DURATION_SECONDS", "-5")]%string))))
             "-5"%string (-5)); [reflexivity|reflexivity|lia].
  - apply (proj2 (proj2 (proj2 (initSleepDuration_fallbacks Strconv.Atoi
                           (env_of [("SLEEP_DURATION_SECONDS", "5")]%string))))
             "5"%string 5); [reflexivity|reflexivity|lia].
Defined.

(** X12: the test [duration <= 0] does not keep the result positive: for a
    value from 9223372037 to 18446744073 the product with [time.Second]
    leaves the 64-bit range and the duration returned is negative. *)
Theorem initSleepDuration_overflow_negative :
  forall (Atoi : string -> Z * option string) (env : Env) s v,
    env "SLEEP_DURATION_SECONDS"%string = Some s ->
    Atoi s = (v, None) ->
    9223372037 <= v <= 18446744073 ->
    fst (initSleepDuration Atoi env) = v * Second - 2 ^ 64 /\
    fst (initSleepDuration Atoi env) < 0.
Proof.
  intros Atoi env s v Hset Hatoi Hv.
  unfold initSleepDuration, LookupEnv.
  rewrite Hset. cbn [negb]. rewrite Hatoi.
  replace (v <=? 0) with false by (symmetry; apply Z.leb_gt; lia).
  cbn [fst]. unfold GoInt.mul, Second, wrap64.
  change (2 ^ 63) with 9223372036854775808.
  change (2 ^ 64) with 18446744073709551616.
  assert (E : (v * 1000000000 + 9223372036854775808) mod 18446744073709551616
              = v * 1000000000 + 9223372036854775808 - 18446744073709551616).
  { symmetry. apply (Z.mod_unique _ _ 1); lia. }
  rewrite E. lia.
Qed.

Lemma initSleepDuration_overflow_negative_witness :
  fst (initSleepDuration Strconv.Atoi
         (env_of [("SLEEP_DURATION_SECONDS", "9223372037")]%string))
  = 9223372037 * Second - 2 ^ 64 /\
  fst (initSleepDuration Strconv.Atoi
         (env_of [("SLEEP_DURATION_SECONDS", "9223372037")]%string)) < 0.
Proof.
  apply (initSleepDuration_overflow_negative Strconv.Atoi
           (env_of [("SLEEP_DURATION_SECONDS", "9223372037")]%string)
           "9223372037"%string 9223372037);
    [reflexivity|reflexivity|lia].
Defined.

(** X13: [initConn] with [UART_DEV] unset or empty opens the first port
    listed, and fails without opening any when the listing fails or is
    empty; with [UART_DEV] set to a name it opens that name and the
    listing plays no part.  The port is always opened at 9600 baud, 8 data
    bits, no parity, one stop bit. *)
Theorem initConn_port_choice :
  forall P (env : Env) (serial : Serial P) (p : P),
    let mode := {| BaudRate := 9600; ModeParity := NoParity;
                   DataBits := 8; ModeStopBits := OneStopBit |} in
    (Getenv env "UART_DEV" = EmptyString ->
     (fst (initConn env serial) = inl p <->
      exists port0 rest,
        GetPortsList serial = (port0 :: rest, None) /\
        Open serial port0 mode = inl p)) /\
    (Getenv env "UART_DEV" <> EmptyString ->
     (fst (initConn env serial) = inl p <->
      Open serial (Getenv env "UART_DEV") mode = inl p)).
Proof.
  intros P env serial p mode. unfold initConn.
  split; intros Hdev.
  - rewrite Hdev. cbn [String.eqb].
    destruct (GetPortsList serial) as [ports [e|]].
    + cbn [fst]. split; [discriminate|].
      intros (port0 & rest & Hl & _). discriminate Hl.
    + destruct ports as [|port0 rest].
      * cbn [fst]. split; [discriminate|].
        intros (port0 & rest & Hl & _). discriminate Hl.
      * fold mode. destruct (Open serial port0 mode) as [q|e] eqn:Hopen;
          cbn [fst]; split.
        -- intros Hq. exists port0, rest. split; congruence.
        -- intros (port0' & rest' & Hl & Ho).
           injection Hl as <- <-. congruence.
        -- discriminate.
        -- intros (port0' & rest' & Hl & Ho).
           injection Hl as <- <-. congruence.
  - apply String.eqb_neq in Hdev. rewrite Hdev. fold mode.
    destruct (Open serial (Getenv env "UART_DEV") mode) as [q|e];
      cbn [fst]; split; congruence.
Qed.

Lemma initConn_port_choice_witness :
  fst (initConn (env_of [("UART_DEV", "")]%string)
         {| GetPortsList := (["/dev/ttyS0"; "/dev/ttyUSB0"]%string, None);
            Open := fun name (_ : Mode) => inl name |})
  = inl "/dev/ttyS0"%string.
Proof.
  apply (proj1 (initConn_port_choice string
                  (env_of [("UART_DEV", "")]%string)
                  {| GetPortsList := (["/dev/ttyS0"; "/dev/ttyUSB0"]%string, None);
                     Open := fun name (_ : Mode) => inl name |}
                  "/dev/ttyS0"%string) eq_refl).
  exists "/dev/ttyS0"%string, ["/dev/ttyUSB0"%string]. split; reflexivity.
Defined.

(** X14: [main] reaches its loop exactly when [initConn] gives a port and
    [INFLUXDB_TOKEN] is set (an empty value counts as set): an error of
    [initConn] is the fatal message, a missing token is fatal after the
    port was opened, and no other setting stops the start.  The loop then
    holds the port, the token and the frame [FF 01 86 00 00 00 00 00 79]. *)
Theorem main_startup_outcome :
  forall P L (Atoi : string -> Z * option string) (env : Env)
         (serial : Serial P) (zones : Zones L),
    (forall e,
       fst (initConn env serial) = inr e ->
       fst (main_startup Atoi env serial zones) = Return (inr e)) /\
    (forall p,
       fst (initConn env serial) = inl p ->
       env "INFLUXDB_TOKEN"%string = None ->
       fst (main_startup Atoi env serial zones)
       = Return (inr "INFLUXDB_TOKEN not set"%string)) /\
    (forall p tok,
       fst (initConn env serial) = inl p ->
       env "INFLUXDB_TOKEN"%string = Some tok ->
       exists cfg,
         fst (main_startup Atoi env serial zones) = Return (inl cfg) /\
         conn cfg = p /\
         authToken (influxClient cfg) = tok /\
         sleepDuration cfg = fst (initSleepDuration Atoi env) /\
         cmd cfg = [xff; x01; x86; x00; x00; x00; x00; x00; x79]).
Proof.
  intros P L Atoi env serial zones. unfold main_startup.
  destruct (initConn env serial) as [[p|e] log1]; cbn [fst].
  - split; [intros e He; discriminate He|].
    destruct (initLocation zones) as [loc log2].
    unfold initInfo, initClient, LookupEnv.
    destruct (env "INFLUXDB_ORG"%string), (env "INFLUXDB_BUCKET"%string);
      cbn [negb];
      (split;
       [ intros p' Hp Htok; rewrite Htok; reflexivity
       | intros p' tok Hp Htok; rewrite Htok; cbn [negb];
         injection Hp as <-;
         destruct (env "INFLUXDB_URL"%string); cbn [negb];
         destruct (initSleepDuration Atoi env) as [d log3];
         rewrite buildCommand_frame; cbn [obind fst];
         eexists; repeat split ]).
  - split; [intros e' He; congruence|].
    split; [intros p Hp; discriminate Hp|intros p tok Hp; discriminate Hp].
Qed.

Lemma main_startup_outcome_witness :
  fst (main_startup Strconv.Atoi (env_of [("UART_DEV", "/dev/ttyS0")]%string)
         {| GetPortsList := ([], None);
            Open := fun name (_ : Mode) => inl name |}
         {| LoadLocation := fun _ => inr "unknown time zone"%string;
            FixedZone := fun _ offset => offset |})
  = Return (inr "INFLUXDB_TOKEN not set"%string).
Proof.
  apply (proj1 (proj2 (main_startup_outcome string Z Strconv.Atoi
                         (env_of [("UART_DEV", "/dev/ttyS0")]%string)
                         {| GetPortsList := ([], None);
                            Open := fun name (_ : Mode) => inl name |}
                         {| LoadLocation := fun _ => inr "unknown time zone"%string;
                            FixedZone := fun _ offset => offset |}))
           "/dev/ttyS0"%string); reflexivity.
Defined.
